(** * LLMConnectors: a shallow embedding of the three provider clients

    The development follows the Python sources file by file:

    - [ConfigOpenAI.py], [ConfigAnthropic.py], [ConfigPerplexity.py]:
      the settings classes and their [validate_api_key] validator;
    - [ApiOpenAI.py], [ApiAnthropic.py], [ApiPerplexity.py]: the clients,
      their [_request] retry loop, [chat_completion], [embeddings] and
      [close];
    - [main.py]: the three test coroutines.

    Python objects are values of [pyval]; a Python [float] is an IEEE-754
    binary64 number (the primitive [float] of the Standard Library); a Python
    [int] is a [Z].  A coroutine is a function of the state it can change:
    the client object and the outside world (requests that reached the
    network, delays handed to [asyncio.sleep]).  [httpx] and [asyncio] are
    not part of the repository: what the server answers is a parameter of
    every definition that reaches the network, and so is what the two
    libraries do with an argument of which the model cannot tell (the class
    [Platform]). *)

From Stdlib Require Import ZArith Floats Lia.
From stdpp Require Import gmap strings list.

Local Open Scope Z_scope.
Set Warnings "-register-all".

(** ** Python values *)

Inductive pyval :=
| PNone
| PBool (b : bool)
| PInt (z : Z)
| PFloat (f : float)
| PStr (s : string)
| PList (l : list pyval)
| PDict (d : gmap string pyval).

(** A number as the retry loop handles it: [self.backoff_factor] is a
    [float] in [OpenAIClient] and an [int] in the two other clients. *)
Inductive pynum :=
| NInt (z : Z)
| NFloat (f : float).

(** ** Exceptions *)

Inductive exn :=
| HTTPStatusError (status : Z)   (* httpx.HTTPStatusError, exc.response.status_code *)
| RequestError                   (* httpx.RequestError, httpx.TimeoutException included *)
| OverflowError
| KeyError (key : pyval)
| IndexError
| TypeError
| ValueError (msg : string)
| RuntimeError (msg : string)
| OtherError (class_name : string).

(** The name of the class of an exception. *)
Definition exn_name (e : exn) : string :=
  match e with
  | HTTPStatusError _ => "HTTPStatusError"
  | RequestError => "RequestError"
  | OverflowError => "OverflowError"
  | KeyError _ => "KeyError"
  | IndexError => "IndexError"
  | TypeError => "TypeError"
  | ValueError _ => "ValueError"
  | RuntimeError _ => "RuntimeError"
  | OtherError n => n
  end.

(** What evaluating an expression or awaiting a coroutine comes to: a
    value, an exception, or an [await] that never completes. *)
Inductive result (A : Type) :=
| Ok (a : A)
| Raise (e : exn)
| Hang.
Arguments Ok {A} a.
Arguments Raise {A} e.
Arguments Hang {A}.

Definition is_Ok {A} (r : result A) : bool :=
  match r with Ok _ => true | _ => false end.

Definition rbind {A B} (r : result A) (k : A -> result B) : result B :=
  match r with
  | Ok a => k a
  | Raise e => Raise e
  | Hang => Hang
  end.

(** ** Numbers *)

(** [float(z)] for an [int]: the nearest binary64 number, ties to even;
    [OverflowError] when that rounding leaves the finite range. *)
Definition float_of_int (z : Z) : result float :=
  match binary_normalize prec emax z 0 false with
  | S754_infinity _ => Raise OverflowError
  | sf => Ok (SF2Prim sf)
  end.

(** [int(f)] for a [float]: truncation towards zero; infinities and NaN
    raise. *)
Definition int_of_float (f : float) : result Z :=
  match Prim2SF f with
  | S754_zero _ => Ok 0
  | S754_finite s m e =>
      let v := Z.shiftl (Z.pos m) e in
      Ok (if s then - v else v)
  | S754_infinity _ => Raise OverflowError
  | S754_nan => Raise (ValueError "cannot convert float NaN to integer")
  end.

(** [x * n] for [n] an [int]: [int * int] is exact; [float * int] converts
    the [int] first, which is where [OverflowError] comes from. *)
Definition num_mul_int (x : pynum) (n : Z) : result pynum :=
  match x with
  | NInt z => Ok (NInt (z * n))
  | NFloat f => rbind (float_of_int n) (fun g => Ok (NFloat (PrimFloat.mul f g)))
  end.

(** [f"{x:.2f}"]: an [int] is converted to [float] before it is printed.
    Only the conversion can fail; the text itself is not modelled. *)
Definition format_2f (x : pynum) : result unit :=
  match x with
  | NInt z => rbind (float_of_int z) (fun _ => Ok tt)
  | NFloat _ => Ok tt
  end.

(** [range(n)] *)
Definition py_range (n : Z) : list Z :=
  map Z.of_nat (seq 0 (Z.to_nat n)).

(** [not s] for a [str] *)
Definition str_falsy (s : string) : bool :=
  if decide (s = "") then true else false.

(** [a or b] for two [str] *)
Definition str_or (a b : string) : string :=
  if str_falsy a then b else a.

(** ** Subscription [obj[key]] *)

Inductive pykey :=
| KStr (s : string)
| KInt (i : Z).

(** Position [i] of a sequence of length [n], negative indices counting
    from the end. *)
Definition seq_index (n : nat) (i : Z) : option nat :=
  let j := if i <? 0 then i + Z.of_nat n else i in
  if (0 <=? j) && (j <? Z.of_nat n) then Some (Z.to_nat j) else None.

Definition getitem (obj : pyval) (k : pykey) : result pyval :=
  match obj, k with
  | PDict d, KStr s =>
      match d !! s with
      | Some v => Ok v
      | None => Raise (KeyError (PStr s))
      end
  | PDict _, KInt i => Raise (KeyError (PInt i))   (* the keys of a decoded JSON object are all str *)
  | PList l, KInt i =>
      match seq_index (length l) i with
      | Some j => match l !! j with Some v => Ok v | None => Raise IndexError end
      | None => Raise IndexError
      end
  | PList _, KStr _ => Raise TypeError
  | PStr s, KInt i =>
      match seq_index (String.length s) i with
      | Some j => Ok (PStr (String.substring j 1 s))
      | None => Raise IndexError
      end
  | PStr _, KStr _ => Raise TypeError
  | _, _ => Raise TypeError                        (* None, bool, int, float are not subscriptable *)
  end.

(** ** Coroutines: state and exceptions *)

Definition M (S A : Type) : Type := S -> result A * S.

Definition ret {S A} (a : A) : M S A := fun s => (Ok a, s).

Definition raise {S A} (e : exn) : M S A := fun s => (Raise e, s).

Definition bind {S A B} (m : M S A) (k : A -> M S B) : M S B :=
  fun s =>
    match m s with
    | (Ok a, s') => k a s'
    | (Raise e, s') => (Raise e, s')
    | (Hang, s') => (Hang, s')
    end.

Definition lift {S A} (r : result A) : M S A := fun s => (r, s).

Notation "'let*' x ':=' m 'in' k" := (bind m (fun x => k))
  (at level 10, x pattern, m at level 100, k at level 200, only parsing).

(** ** The outside world and the httpx client *)

Record request := {
  req_method : string;
  req_path : string;
  req_json : option (gmap string pyval);
  req_params : option (gmap string pyval)
}.

(** What the three statements of the [try] body of [_request] produce for
    the [i]-th request that reaches the network: the decoded body, or the
    exception raised by [request], [raise_for_status] or [json]. *)
Definition server : Type := nat -> request -> result pyval.

Record world := {
  sent : list request;     (* requests that reached the network, oldest first *)
  slept : list pynum       (* delays handed to asyncio.sleep, oldest first *)
}.

Definition world0 : world := {| sent := []; slept := [] |}.

(** The exceptions the two handlers of [_request] catch. *)
Definition caught (e : exn) : bool :=
  match e with
  | HTTPStatusError _ | RequestError => true
  | _ => false
  end.

(** What the two libraries do where the model cannot tell. *)
Class Platform := {
  (* httpx.AsyncClient(base_url=..., timeout=..., headers=...): the
     constructor parses the URL and encodes the headers, and raises on
     what it refuses (InvalidURL, UnicodeEncodeError, ...) *)
  httpx_client : string -> pynum -> list (string * string) -> result unit;
  (* client.build_request(method, url, json=..., params=...) for a client
     with this base URL and these headers, the first step of
     client.request: it merges the URL and encodes the body, and raises
     on what it refuses (InvalidURL, the ValueError of a float that JSON
     cannot hold, ...) *)
  httpx_build : string -> list (string * string) -> request -> result unit;
  (* what build_request raises is no httpx.HTTPStatusError, which comes
     from raise_for_status, and no httpx.RequestError, which comes from
     sending *)
  httpx_build_uncaught :
    forall base_url headers req e,
      httpx_build base_url headers req = Raise e -> caught e = false;
  (* await asyncio.sleep(nan): according to the version of Python and to
     the other timers of the loop it returns, raises ValueError or never
     completes *)
  sleep_nan : result unit
}.

(** What [await asyncio.sleep(delay)] comes to.  A delay [<= 0] returns at
    once and a finite one in the end; [call_later] adds the delay to the
    [float] time of the loop, which raises [OverflowError] for an [int]
    too large to convert; the timer of an infinite delay never fires. *)
Definition sleep_outcome `{!Platform} (delay : pynum) : result unit :=
  match delay with
  | NInt z => if z <=? 0 then Ok tt else rbind (float_of_int z) (fun _ => Ok tt)
  | NFloat f =>
      match Prim2SF f with
      | S754_nan => sleep_nan
      | S754_infinity false => Hang
      | _ => Ok tt
      end
  end.

(** [await asyncio.sleep(delay)]: the delay asked for is recorded; how long
    the event loop waits for a finite delay is outside the model. *)
Definition sleep `{!Platform} (delay : pynum) : M world unit :=
  fun w => (sleep_outcome delay, {| sent := sent w; slept := slept w ++ [delay] |}).

Module AsyncClient.

Record t := {
  base_url : string;
  timeout : pynum;
  headers : list (string * string);
  is_closed : bool
}.

Definition closed_msg : string :=
  "Cannot send a request, as the client has been closed.".

(** [httpx.AsyncClient(base_url=..., timeout=..., headers=...)] *)
Definition new `{!Platform} (base_url : string) (timeout : pynum)
    (headers : list (string * string)) : result t :=
  rbind (httpx_client base_url timeout headers) (fun _ =>
    Ok {| base_url := base_url; timeout := timeout;
          headers := headers; is_closed := false |}).

(** [client.build_request(...)]: it does not look at whether the client
    is closed. *)
Definition build `{!Platform} (cl : t) (req : request) : result unit :=
  httpx_build (base_url cl) (headers cl) req.

(** [resp = await client.request(...); resp.raise_for_status(); resp.json()].
    [client.request] builds the request and then sends it; sending is
    what httpx refuses on a closed client, before any I/O. *)
Definition request `{!Platform} (srv : server) (cl : t) (req : request)
    : M world pyval :=
  fun w =>
    match build cl req with
    | Ok _ =>
        if is_closed cl then (Raise (RuntimeError closed_msg), w)
        else (srv (length (sent w)) req,
              {| sent := sent w ++ [req]; slept := slept w |})
    | Raise e => (Raise e, w)
    | Hang => (Hang, w)
    end.

(** [await client.aclose()] *)
Definition aclose (cl : t) : t :=
  {| base_url := base_url cl; timeout := timeout cl;
     headers := headers cl; is_closed := true |}.

End AsyncClient.

(** ** The retry loop

    [_request] is the same loop in the three clients, up to the texts it
    logs and the type of [self.backoff_factor]. *)

Definition retriable_status (status : Z) : bool :=
  (status =? 429) || ((500 <=? status) && (status <? 600)).

(** The retry branch of either handler: compute the delay, log it, sleep. *)
Definition back_off `{!Platform} (backoff_factor : pynum) (attempt : Z) : M world unit :=
  let* backoff := lift (num_mul_int backoff_factor (2 ^ attempt)) in
  let* _ := lift (format_2f backoff) in
  sleep backoff.

(** The body of [for attempt in attempts: ...], falling through to the
    implicit [return None] when [attempts] is over. *)
Fixpoint retry_loop `{!Platform} (srv : server) (cl : AsyncClient.t) (max_retries : Z)
    (backoff_factor : pynum) (req : request) (attempts : list Z) : M world pyval :=
  match attempts with
  | [] => ret PNone
  | attempt :: rest =>
      fun w =>
        match AsyncClient.request srv cl req w with
        | (Ok body, w') => (Ok body, w')
        | (Raise (HTTPStatusError status), w') =>
            if (attempt <? max_retries) && retriable_status status then
              bind (back_off backoff_factor attempt)
                   (fun _ => retry_loop srv cl max_retries backoff_factor req rest) w'
            else (Raise (HTTPStatusError status), w')
        | (Raise RequestError, w') =>
            if attempt <? max_retries then
              bind (back_off backoff_factor attempt)
                   (fun _ => retry_loop srv cl max_retries backoff_factor req rest) w'
            else (Raise RequestError, w')
        | (Raise e, w') => (Raise e, w')
        | (Hang, w') => (Hang, w')
        end
  end.

Definition request_with_retry `{!Platform} (srv : server) (cl : AsyncClient.t) (max_retries : Z)
    (backoff_factor : pynum) (req : request) : M world pyval :=
  retry_loop srv cl max_retries backoff_factor req (py_range (max_retries + 1)).

(** Running [m] on one component of a larger state. *)
Definition in_world {C A} (m : M world A) : M (C * world) A :=
  fun '(c, w) => let '(r, w') := m w in (r, (c, w')).

Definition get_self {C} : M (C * world) C :=
  fun '(c, w) => (Ok c, (c, w)).

Definition modify_self {C} (f : C -> C) : M (C * world) unit :=
  fun '(c, w) => (Ok tt, (f c, w)).

(** [os.getenv(name, default)] *)
Definition getenv (environ : gmap string string) (name default_value : string) : string :=
  default default_value (environ !! name).

Definition system_text : string :=
  "You are an expert, wise, and playful AI mentor. " +:+
  "You explain technical and scientific ideas clearly, with curiosity and intelligence. " +:+
  "You never produce hallucinations; if unsure, you say you don’t know. " +:+
  "You encourage critical thinking, prompt questions, and rigor.".

(** [{"role": role, "content": content}] *)
Definition turn (role content : string) : pyval :=
  PDict {[ "role" := PStr role; "content" := PStr content ]}.

(** ** ConfigOpenAI.py *)

Module OpenAISettings.

Record t := {
  api_key : string;
  base_url : string;
  timeout : float;
  max_retries : Z;
  backoff_factor : float
}.

(** The field defaults, computed once from [os.getenv] when the class
    body runs. *)
Record class_defaults := {
  d_base_url : string;
  d_timeout : float;
  d_max_retries : Z;
  d_backoff_factor : float
}.

Definition with_api_key (k : string) (self : t) : t :=
  {| api_key := k; base_url := base_url self; timeout := timeout self;
     max_retries := max_retries self; backoff_factor := backoff_factor self |}.

Definition missing_msg : string :=
  "OPENAI_API_KEY must be provided either as parameter or environment variable".

(** The [model_validator(mode='after')] of the class.  The [ValueError] it
    raises reaches the caller inside pydantic's [ValidationError], itself a
    [ValueError]. *)

Definition validate_api_key (environ : gmap string string) (self : t) : result t :=
  let self :=
    if str_falsy (api_key self)
    then with_api_key (getenv environ "OPENAI_API_KEY" "") self
    else self in
  if str_falsy (api_key self) then Raise (ValueError missing_msg) else Ok self.

(** [OpenAISettings(api_key=..., base_url=..., ...)]; [None] is an
    argument left out. *)
Definition new (environ : gmap string string) (d : class_defaults)
    (arg_api_key arg_base_url : option string) (arg_timeout : option float)
    (arg_max_retries : option Z) (arg_backoff_factor : option float) : result t :=
  validate_api_key environ
    {| api_key := default "" arg_api_key;
       base_url := default (d_base_url d) arg_base_url;
       timeout := default (d_timeout d) arg_timeout;
       max_retries := default (d_max_retries d) arg_max_retries;
       backoff_factor := default (d_backoff_factor d) arg_backoff_factor |}.

End OpenAISettings.

(** ** ApiOpenAI.py *)

Module OpenAIClient.

Record t := {
  settings : OpenAISettings.t;
  _client : AsyncClient.t;
  max_retries : Z;
  backoff_factor : float;
  messages : list pyval
}.

Definition init `{!Platform} (environ : gmap string string)
    (d : OpenAISettings.class_defaults)
    (arg_settings : option OpenAISettings.t) : result t :=
  rbind
    (match arg_settings with
     | Some s => Ok s
     | None => OpenAISettings.new environ d None None None None None
     end)
    (fun s =>
  rbind
    (AsyncClient.new (OpenAISettings.base_url s) (NFloat (OpenAISettings.timeout s))
       [("Authorization", "Bearer " +:+ OpenAISettings.api_key s);
        ("Content-Type", "application/json")])
    (fun client =>
       Ok {| settings := s;
             _client := client;
             max_retries := OpenAISettings.max_retries s;
             backoff_factor := OpenAISettings.backoff_factor s;
             messages := [turn "system" system_text] |})).

Definition _request `{!Platform} (srv : server) (self : t) (method path : string)
    (json params : option (gmap string pyval)) : M world pyval :=
  request_with_retry srv (_client self) (max_retries self)
    (NFloat (backoff_factor self))
    {| req_method := method; req_path := path; req_json := json; req_params := params |}.

(** [self.messages.append(m)] *)
Definition append_message (m : pyval) (self : t) : t :=
  {| settings := settings self; _client := _client self;
     max_retries := max_retries self; backoff_factor := backoff_factor self;
     messages := messages self ++ [m] |}.

(** The dict literal of [chat_completion] followed by
    [payload.update(kwargs)]. *)
Definition chat_payload (self : t) (model : string) (temperature : float)
    (kwargs : gmap string pyval) : gmap string pyval :=
  kwargs ∪ {[ "model" := PStr model;
              "messages" := PList (messages self);
              "temperature" := PFloat temperature ]}.

(** [result['choices'][0]['message']['content']] *)
Definition only_answer (res : pyval) : result pyval :=
  rbind (getitem res (KStr "choices")) (fun a =>
  rbind (getitem a (KInt 0)) (fun b =>
  rbind (getitem b (KStr "message")) (fun c =>
  getitem c (KStr "content")))).

Definition chat_completion `{!Platform} (srv : server) (query model : string) (temperature : float)
    (return_only_answer : bool) (kwargs : gmap string pyval) : M (t * world) pyval :=
  let* _ := modify_self (append_message (turn "user" query)) in
  let* self := get_self in
  let payload := chat_payload self model temperature kwargs in
  let* res :=
    in_world (_request srv self "POST"
                (OpenAISettings.base_url (settings self) +:+ "chat/completions")
                (Some payload) None) in
  if return_only_answer then lift (only_answer res) else ret res.

Definition embeddings_payload (input model : string) (kwargs : gmap string pyval)
    : gmap string pyval :=
  kwargs ∪ {[ "model" := PStr model; "input" := PStr input ]}.

(** [result['data'][0]['embedding']] *)
Definition only_embeddings (res : pyval) : result pyval :=
  rbind (getitem res (KStr "data")) (fun a =>
  rbind (getitem a (KInt 0)) (fun b =>
  getitem b (KStr "embedding"))).

Definition embeddings `{!Platform} (srv : server) (input model : string)
    (return_only_embeddings : bool) (kwargs : gmap string pyval) : M (t * world) pyval :=
  let* self := get_self in
  let payload := embeddings_payload input model kwargs in
  let* res :=
    in_world (_request srv self "POST"
                (OpenAISettings.base_url (settings self) +:+ "embeddings")
                (Some payload) None) in
  if return_only_embeddings then lift (only_embeddings res) else ret res.

Definition close : M (t * world) unit :=
  modify_self (fun self =>
    {| settings := settings self; _client := AsyncClient.aclose (_client self);
       max_retries := max_retries self; backoff_factor := backoff_factor self;
       messages := messages self |}).

End OpenAIClient.

(** ** ConfigAnthropic.py *)

Module AnthropicSettings.

Record t := {
  api_key : string;
  base_url : string;
  version : string;
  timeout : float;
  max_retries : Z;
  backoff_factor : float
}.

Record class_defaults := {
  d_base_url : string;
  d_version : string;
  d_timeout : float;
  d_max_retries : Z;
  d_backoff_factor : float
}.

Definition with_api_key (k : string) (self : t) : t :=
  {| api_key := k; base_url := base_url self; version := version self;
     timeout := timeout self; max_retries := max_retries self;
     backoff_factor := backoff_factor self |}.

Definition missing_msg : string :=
  "ANTHROPIC_API_KEY must be provided either as parameter or environment variable".

Definition validate_api_key (environ : gmap string string) (self : t) : result t :=
  let self :=
    if str_falsy (api_key self)
    then with_api_key (getenv environ "ANTHROPIC_API_KEY" "") self
    else self in
  if str_falsy (api_key self) then Raise (ValueError missing_msg) else Ok self.

Definition new (environ : gmap string string) (d : class_defaults)
    (arg_api_key arg_base_url arg_version : option string) (arg_timeout : option float)
    (arg_max_retries : option Z) (arg_backoff_factor : option float) : result t :=
  validate_api_key environ
    {| api_key := default "" arg_api_key;
       base_url := default (d_base_url d) arg_base_url;
       version := default (d_version d) arg_version;
       timeout := default (d_timeout d) arg_timeout;
       max_retries := default (d_max_retries d) arg_max_retries;
       backoff_factor := default (d_backoff_factor d) arg_backoff_factor |}.

End AnthropicSettings.

(** ** ApiAnthropic.py *)

Module AnthropicClient.

Record t := {
  system_prompt : string;
  settings : AnthropicSettings.t;
  _client : AsyncClient.t;
  max_retries : Z;
  backoff_factor : Z;
  messages : list pyval
}.

Definition _get_claude_system_prompt : string := system_text.

Definition init `{!Platform} (environ : gmap string string)
    (d : AnthropicSettings.class_defaults)
    (arg_system_prompt : string) (arg_settings : option AnthropicSettings.t) : result t :=
  let prompt := str_or arg_system_prompt _get_claude_system_prompt in
  rbind
    (match arg_settings with
     | Some s => Ok s
     | None => AnthropicSettings.new environ d None None None None None None
     end)
    (fun s =>
  rbind (int_of_float (AnthropicSettings.timeout s)) (fun tmo =>
  rbind
    (AsyncClient.new
       (str_or (AnthropicSettings.base_url s) "https://api.anthropic.com/v1/")
       (NInt tmo)
       [("x-api-key", AnthropicSettings.api_key s);
        ("anthropic-version", AnthropicSettings.version s);
        ("Content-Type", "application/json")])
    (fun client =>
  rbind (int_of_float (AnthropicSettings.backoff_factor s)) (fun bf =>
    Ok {| system_prompt := prompt;
          settings := s;
          _client := client;
          max_retries := AnthropicSettings.max_retries s;
          backoff_factor := bf;
          messages := [] |})))).

Definition _request `{!Platform} (srv : server) (self : t) (method path : string)
    (json : option (gmap string pyval)) : M world pyval :=
  request_with_retry srv (_client self) (max_retries self)
    (NInt (backoff_factor self))
    {| req_method := method; req_path := path; req_json := json; req_params := None |}.

Definition append_message (m : pyval) (self : t) : t :=
  {| system_prompt := system_prompt self; settings := settings self;
     _client := _client self; max_retries := max_retries self;
     backoff_factor := backoff_factor self; messages := messages self ++ [m] |}.

(** [payload[key] = f(v)] under [if v is not None] *)
Definition set_if {A} (key : string) (f : A -> pyval) (v : option A)
    (payload : gmap string pyval) : gmap string pyval :=
  match v with
  | Some x => <[key := f x]> payload
  | None => payload
  end.

Definition chat_payload (self : t) (model : string) (max_tokens : option Z)
    (temperature : option float) (stop_sequences : option (list string))
    (kwargs : gmap string pyval) : gmap string pyval :=
  let payload :=
    {[ "model" := PStr model;
       "system" := PStr (system_prompt self);
       "messages" := PList (messages self) ]} in
  let payload := set_if "max_tokens" PInt max_tokens payload in
  let payload := set_if "temperature" PFloat temperature payload in
  let payload := set_if "stop_sequences" (fun l => PList (PStr <$> l)) stop_sequences payload in
  kwargs ∪ payload.

Definition chat_completion `{!Platform} (srv : server) (query model : string) (max_tokens : option Z)
    (temperature : option float) (stop_sequences : option (list string))
    (kwargs : gmap string pyval) : M (t * world) pyval :=
  let* _ := modify_self (append_message (turn "user" query)) in
  let* self := get_self in
  let payload := chat_payload self model max_tokens temperature stop_sequences kwargs in
  in_world (_request srv self "POST"
              (AnthropicSettings.base_url (settings self) +:+ "messages")
              (Some payload)).

Definition close : M (t * world) unit :=
  modify_self (fun self =>
    {| system_prompt := system_prompt self; settings := settings self;
       _client := AsyncClient.aclose (_client self); max_retries := max_retries self;
       backoff_factor := backoff_factor self; messages := messages self |}).

End AnthropicClient.

(** ** ConfigPerplexity.py *)

Module PerplexitySettings.

Record t := {
  api_key : string;
  base_url : string;
  timeout : float;
  max_retries : Z;
  backoff_factor : float;
  poll_interval : float
}.

Record class_defaults := {
  d_base_url : string;
  d_timeout : float;
  d_max_retries : Z;
  d_backoff_factor : float;
  d_poll_interval : float
}.

Definition with_api_key (k : string) (self : t) : t :=
  {| api_key := k; base_url := base_url self; timeout := timeout self;
     max_retries := max_retries self; backoff_factor := backoff_factor self;
     poll_interval := poll_interval self |}.

Definition missing_msg : string :=
  "PPLX_API_KEY must be provided either as parameter or environment variable".

Definition validate_api_key (environ : gmap string string) (self : t) : result t :=
  let self :=
    if str_falsy (api_key self)
    then with_api_key (getenv environ "PPLX_API_KEY" "") self
    else self in
  if str_falsy (api_key self) then Raise (ValueError missing_msg) else Ok self.

Definition new (environ : gmap string string) (d : class_defaults)
    (arg_api_key arg_base_url : option string) (arg_timeout : option float)
    (arg_max_retries : option Z) (arg_backoff_factor arg_poll_interval : option float)
    : result t :=
  validate_api_key environ
    {| api_key := default "" arg_api_key;
       base_url := default (d_base_url d) arg_base_url;
       timeout := default (d_timeout d) arg_timeout;
       max_retries := default (d_max_retries d) arg_max_retries;
       backoff_factor := default (d_backoff_factor d) arg_backoff_factor;
       poll_interval := default (d_poll_interval d) arg_poll_interval |}.

End PerplexitySettings.

(** ** ApiPerplexity.py *)

Module PerplexityClient.

Record t := {
  settings : PerplexitySettings.t;
  _client : AsyncClient.t;
  max_retries : Z;
  backoff_factor : Z;
  poll_interval : Z;
  messages : list pyval
}.

Definition init `{!Platform} (environ : gmap string string)
    (d : PerplexitySettings.class_defaults)
    (arg_settings : option PerplexitySettings.t) : result t :=
  rbind
    (match arg_settings with
     | Some s => Ok s
     | None => PerplexitySettings.new environ d None None None None None None
     end)
    (fun s =>
  rbind (int_of_float (PerplexitySettings.timeout s)) (fun tmo =>
  rbind
    (AsyncClient.new (PerplexitySettings.base_url s) (NInt tmo)
       [("Accept", "application/json");
        ("Content-Type", "application/json");
        ("Authorization", "Bearer " +:+ PerplexitySettings.api_key s)])
    (fun client =>
  rbind (int_of_float (PerplexitySettings.backoff_factor s)) (fun bf =>
  rbind (int_of_float (PerplexitySettings.poll_interval s)) (fun poll =>
    Ok {| settings := s;
          _client := client;
          max_retries := PerplexitySettings.max_retries s;
          backoff_factor := bf;
          poll_interval := poll;
          messages := [turn "system" system_text] |}))))).

Definition _request `{!Platform} (srv : server) (self : t) (method path : string)
    (json : option (gmap string pyval)) : M world pyval :=
  request_with_retry srv (_client self) (max_retries self)
    (NInt (backoff_factor self))
    {| req_method := method; req_path := path; req_json := json; req_params := None |}.

Definition append_message (m : pyval) (self : t) : t :=
  {| settings := settings self; _client := _client self;
     max_retries := max_retries self; backoff_factor := backoff_factor self;
     poll_interval := poll_interval self; messages := messages self ++ [m] |}.

Definition chat_payload (self : t) (model : string) : gmap string pyval :=
  {[ "model" := PStr model; "messages" := PList (messages self) ]}.

Definition chat_completion `{!Platform} (srv : server) (query model : string) : M (t * world) pyval :=
  let* _ := modify_self (append_message (turn "user" query)) in
  let* self := get_self in
  let payload := chat_payload self model in
  in_world (_request srv self "POST"
              (PerplexitySettings.base_url (settings self) +:+ "chat/completions")
              (Some payload)).

Definition close : M (t * world) unit :=
  modify_self (fun self =>
    {| settings := settings self; _client := AsyncClient.aclose (_client self);
       max_retries := max_retries self; backoff_factor := backoff_factor self;
       poll_interval := poll_interval self; messages := messages self |}).

End PerplexityClient.

(** * Specification-side definitions *)

(** The binary64 number [2 ** a], the second factor of the OpenAI delay. *)
Definition float_pow2 (a : Z) : float :=
  SF2Prim (binary_normalize prec emax (2 ^ a) 0 false).

(** The delay [backoff_factor * 2 ** attempt] of [OpenAIClient]. *)
Definition float_delay (backoff_factor : float) (attempt : Z) : pynum :=
  NFloat (PrimFloat.mul backoff_factor (float_pow2 attempt)).

(** The delay [backoff_factor * 2 ** attempt] of the two [int] clients. *)
Definition int_delay (backoff_factor : Z) (attempt : Z) : pynum :=
  NInt (backoff_factor * 2 ^ attempt).

(** The delay after attempt [a] for a client whose [self.backoff_factor]
    is [x]. *)
Definition delay_of (x : pynum) (a : Z) : pynum :=
  match x with
  | NInt z => int_delay z a
  | NFloat f => float_delay f a
  end.

(** A failure the retry loop retries: status 429, a status in 500..599, or
    a network or timeout error. *)
Definition retriable (r : result pyval) : Prop :=
  r = Raise RequestError \/
  exists status, r = Raise (HTTPStatusError status) /\ retriable_status status = true.

(** The path [choices[0].message.content] of a response envelope, written
    from the specification's words: an optional-path extractor over the
    JSON structure. *)
Definition content_path (body : pyval) : option pyval :=
  match body with
  | PDict d =>
      match d !! "choices" with
      | Some (PList (PDict first :: _)) =>
          match first !! "message" with
          | Some (PDict msg) => msg !! "content"
          | _ => None
          end
      | _ => None
      end
  | _ => None
  end.

(** The classes of the errors a failed subscription raises. *)
Definition lookup_error (e : exn) : Prop :=
  exn_name e = "KeyError" \/ exn_name e = "IndexError" \/ exn_name e = "TypeError".

(** The role of a history entry, [m["role"]]. *)
Definition role_of (m : pyval) : result pyval := getitem m (KStr "role").

(** The content of a history entry, [m["content"]]. *)
Definition content_of (m : pyval) : result pyval := getitem m (KStr "content").

(** The requests of [w'] that were not yet in [w]. *)
Definition new_requests (w w' : world) : list request :=
  drop (length (sent w)) (sent w').

(** The [messages] entry of the JSON payload of a request. *)
Definition payload_messages (r : request) : option pyval :=
  req_json r ≫= (.!! "messages").

(** The [system] entry of the JSON payload of a request. *)
Definition payload_system (r : request) : option pyval :=
  req_json r ≫= (.!! "system").

(** The request [chat_completion] hands to [_request], built from the
    client as it is after the append. *)
Definition openai_chat_request (self : OpenAIClient.t) (model : string)
    (temperature : float) (kwargs : gmap string pyval) : request :=
  {| req_method := "POST";
     req_path := OpenAISettings.base_url (OpenAIClient.settings self) +:+ "chat/completions";
     req_json := Some (OpenAIClient.chat_payload self model temperature kwargs);
     req_params := None |}.

Definition openai_embeddings_request (self : OpenAIClient.t) (input model : string)
    (kwargs : gmap string pyval) : request :=
  {| req_method := "POST";
     req_path := OpenAISettings.base_url (OpenAIClient.settings self) +:+ "embeddings";
     req_json := Some (OpenAIClient.embeddings_payload input model kwargs);
     req_params := None |}.

Definition anthropic_chat_request (self : AnthropicClient.t) (model : string)
    (max_tokens : option Z) (temperature : option float)
    (stop_sequences : option (list string)) (kwargs : gmap string pyval) : request :=
  {| req_method := "POST";
     req_path := AnthropicSettings.base_url (AnthropicClient.settings self) +:+ "messages";
     req_json := Some (AnthropicClient.chat_payload self model max_tokens temperature
                         stop_sequences kwargs);
     req_params := None |}.

Definition perplexity_chat_request (self : PerplexityClient.t) (model : string) : request :=
  {| req_method := "POST";
     req_path := PerplexitySettings.base_url (PerplexityClient.settings self)
                 +:+ "chat/completions";
     req_json := Some (PerplexityClient.chat_payload self model);
     req_params := None |}.

(** A caller that makes one [chat_completion] call after the other on the
    same client, whatever each call returns or raises. *)
Module OpenAICalls.

Record args := {
  query : string;
  model : string;
  temperature : float;
  return_only_answer : bool;
  kwargs : gmap string pyval
}.

Definition call `{!Platform} (srv : server) (a : args) (s : OpenAIClient.t * world)
    : OpenAIClient.t * world :=
  (OpenAIClient.chat_completion srv (query a) (model a) (temperature a)
     (return_only_answer a) (kwargs a) s).2.

Definition calls `{!Platform} (srv : server) (l : list args) (s : OpenAIClient.t * world)
    : OpenAIClient.t * world :=
  foldl (fun s a => call srv a s) s l.

End OpenAICalls.

Module AnthropicCalls.

Record args := {
  query : string;
  model : string;
  max_tokens : option Z;
  temperature : option float;
  stop_sequences : option (list string);
  kwargs : gmap string pyval
}.

Definition call `{!Platform} (srv : server) (a : args) (s : AnthropicClient.t * world)
    : AnthropicClient.t * world :=
  (AnthropicClient.chat_completion srv (query a) (model a) (max_tokens a)
     (temperature a) (stop_sequences a) (kwargs a) s).2.

Definition calls `{!Platform} (srv : server) (l : list args) (s : AnthropicClient.t * world)
    : AnthropicClient.t * world :=
  foldl (fun s a => call srv a s) s l.

End AnthropicCalls.

Module PerplexityCalls.

Record args := {
  query : string;
  model : string
}.

Definition call `{!Platform} (srv : server) (a : args) (s : PerplexityClient.t * world)
    : PerplexityClient.t * world :=
  (PerplexityClient.chat_completion srv (query a) (model a) s).2.

Definition calls `{!Platform} (srv : server) (l : list args) (s : PerplexityClient.t * world)
    : PerplexityClient.t * world :=
  foldl (fun s a => call srv a s) s l.

End PerplexityCalls.

(** ** Concrete servers, settings and clients *)

(** A server that gives the same answer to every request. *)
Definition always (r : result pyval) : server := fun _ _ => r.

(** The envelope [{"choices": [{"message": {"content": "hi"}}]}]. *)
Definition hi_body : pyval :=
  PDict {[ "choices" :=
             PList [PDict {[ "message" := PDict {[ "content" := PStr "hi" ]} ]}] ]}.

Module Examples.

(** A platform for the examples: its httpx takes what it is given, as the
    library does with the URLs, the ASCII keys and the finite numbers used
    below; none of the examples sleeps on a NaN. *)
Definition platform : Platform :=
  {| httpx_client := fun _ _ _ => Ok tt;
     httpx_build := fun _ _ _ => Ok tt;
     httpx_build_uncaught := ltac:(discriminate);
     sleep_nan := Hang |}.

Definition openai_defaults : OpenAISettings.class_defaults :=
  {| OpenAISettings.d_base_url := "https://api.openai.com/v1/";
     OpenAISettings.d_timeout := 120%float;
     OpenAISettings.d_max_retries := 5;
     OpenAISettings.d_backoff_factor := 2%float |}.

Definition anthropic_defaults : AnthropicSettings.class_defaults :=
  {| AnthropicSettings.d_base_url := "https://api.anthropic.com/v1/";
     AnthropicSettings.d_version := "2023-06-01";
     AnthropicSettings.d_timeout := 120%float;
     AnthropicSettings.d_max_retries := 5;
     AnthropicSettings.d_backoff_factor := 2%float |}.

Definition perplexity_defaults : PerplexitySettings.class_defaults :=
  {| PerplexitySettings.d_base_url := "https://api.perplexity.ai/";
     PerplexitySettings.d_timeout := 120%float;
     PerplexitySettings.d_max_retries := 5;
     PerplexitySettings.d_backoff_factor := 2%float;
     PerplexitySettings.d_poll_interval := 1%float |}.

(** [OpenAISettings(api_key="k", max_retries=n, backoff_factor=bf)] *)
Definition openai_settings (n : Z) (bf : float) : OpenAISettings.t :=
  {| OpenAISettings.api_key := "k";
     OpenAISettings.base_url := "https://api.openai.com/v1/";
     OpenAISettings.timeout := 120%float;
     OpenAISettings.max_retries := n;
     OpenAISettings.backoff_factor := bf |}.

(** [OpenAIClient(settings=OpenAISettings(api_key="k", max_retries=n, backoff_factor=bf))] *)
Definition openai (n : Z) (bf : float) : OpenAIClient.t :=
  {| OpenAIClient.settings := openai_settings n bf;
     OpenAIClient._client :=
       {| AsyncClient.base_url := "https://api.openai.com/v1/";
          AsyncClient.timeout := NFloat 120%float;
          AsyncClient.headers :=
            [("Authorization", "Bearer k"); ("Content-Type", "application/json")];
          AsyncClient.is_closed := false |};
     OpenAIClient.max_retries := n;
     OpenAIClient.backoff_factor := bf;
     OpenAIClient.messages := [turn "system" system_text] |}.

(** [AnthropicSettings(api_key="k", max_retries=n, backoff_factor=bf)] *)
Definition anthropic_settings (n : Z) (bf : float) : AnthropicSettings.t :=
  {| AnthropicSettings.api_key := "k";
     AnthropicSettings.base_url := "https://api.anthropic.com/v1/";
     AnthropicSettings.version := "2023-06-01";
     AnthropicSettings.timeout := 120%float;
     AnthropicSettings.max_retries := n;
     AnthropicSettings.backoff_factor := bf |}.

(** [PerplexitySettings(api_key="k", max_retries=n, backoff_factor=bf)] *)
Definition perplexity_settings (n : Z) (bf : float) : PerplexitySettings.t :=
  {| PerplexitySettings.api_key := "k";
     PerplexitySettings.base_url := "https://api.perplexity.ai/";
     PerplexitySettings.timeout := 120%float;
     PerplexitySettings.max_retries := n;
     PerplexitySettings.backoff_factor := bf;
     PerplexitySettings.poll_interval := 1%float |}.

(** The client [AnthropicClient(system_prompt=p, settings=...)] builds from
    settings with [max_retries=n] and a whole [backoff_factor=bf]. *)
Definition anthropic (p : string) (n : Z) (bf : Z) : AnthropicClient.t :=
  {| AnthropicClient.system_prompt := str_or p system_text;
     AnthropicClient.settings :=
       anthropic_settings n (SF2Prim (binary_normalize prec emax bf 0 false));
     AnthropicClient._client :=
       {| AsyncClient.base_url := "https://api.anthropic.com/v1/";
          AsyncClient.timeout := NInt 120;
          AsyncClient.headers :=
            [("x-api-key", "k"); ("anthropic-version", "2023-06-01");
             ("Content-Type", "application/json")];
          AsyncClient.is_closed := false |};
     AnthropicClient.max_retries := n;
     AnthropicClient.backoff_factor := bf;
     AnthropicClient.messages := [] |}.

(** The client [PerplexityClient(settings=...)] builds from settings with
    [max_retries=n] and a whole [backoff_factor=bf]. *)
Definition perplexity (n : Z) (bf : Z) : PerplexityClient.t :=
  {| PerplexityClient.settings :=
       perplexity_settings n (SF2Prim (binary_normalize prec emax bf 0 false));
     PerplexityClient._client :=
       {| AsyncClient.base_url := "https://api.perplexity.ai/";
          AsyncClient.timeout := NInt 120;
          AsyncClient.headers :=
            [("Accept", "application/json"); ("Content-Type", "application/json");
             ("Authorization", "Bearer k")];
          AsyncClient.is_closed := false |};
     PerplexityClient.max_retries := n;
     PerplexityClient.backoff_factor := bf;
     PerplexityClient.poll_interval := 1;
     PerplexityClient.messages := [turn "system" system_text] |}.

(** [chat_completion(query=q)] with the defaults of each client. *)
Definition ask_openai (q : string) : OpenAICalls.args :=
  {| OpenAICalls.query := q;
     OpenAICalls.model := "gpt-4.1-nano";
     OpenAICalls.temperature := 0x1.b333333333333p-1%float;
     OpenAICalls.return_only_answer := false;
     OpenAICalls.kwargs := ∅ |}.

Definition ask_anthropic (q : string) : AnthropicCalls.args :=
  {| AnthropicCalls.query := q;
     AnthropicCalls.model := "claude-sonnet-4-5-20250929";
     AnthropicCalls.max_tokens := Some 4096;
     AnthropicCalls.temperature := None;
     AnthropicCalls.stop_sequences := None;
     AnthropicCalls.kwargs := ∅ |}.

(** [chat_completion(query=q, **kw)] *)
Definition ask_openai_with (q : string) (kw : gmap string pyval) : OpenAICalls.args :=
  {| OpenAICalls.query := q;
     OpenAICalls.model := "gpt-4.1-nano";
     OpenAICalls.temperature := 0x1.b333333333333p-1%float;
     OpenAICalls.return_only_answer := false;
     OpenAICalls.kwargs := kw |}.

Definition ask_anthropic_with (q : string) (kw : gmap string pyval) : AnthropicCalls.args :=
  {| AnthropicCalls.query := q;
     AnthropicCalls.model := "claude-sonnet-4-5-20250929";
     AnthropicCalls.max_tokens := Some 4096;
     AnthropicCalls.temperature := None;
     AnthropicCalls.stop_sequences := None;
     AnthropicCalls.kwargs := kw |}.

Definition ask_perplexity (q : string) : PerplexityCalls.args :=
  {| PerplexityCalls.query := q; PerplexityCalls.model := "sonar" |}.

End Examples.

(** ** main.py

    The three coroutines, with the names [OpenAIClient], [OpenAISettings]
    and so on bound to the classes above.  The module imports them from
    [src.connectors], a package path this repository does not have; the
    coroutines are modelled as they run once the imports resolve. *)

Module Main.

(** How a coroutine of [main.py] ends. *)
Inductive ending :=
| Returned
| Exited (code : Z)        (* sys.exit(code) *)
| Uncaught (e : exn)
| Hangs.                   (* the coroutine never completes *)

(** What reaches the standard output. *)
Inductive printed :=
| Print (v : pyval)        (* print(result) *)
| PrintJson (v : pyval).   (* print(json.dumps(result, indent=2)) *)

Record run (C : Type) := {
  ending_of : ending;
  client_of : option C;    (* the client object, once it is bound *)
  stdout_of : list printed;
  world_of : world
}.
Arguments ending_of {C} r.
Arguments client_of {C} r.
Arguments stdout_of {C} r.
Arguments world_of {C} r.

(** [os.environ[name]] *)
Definition environ_getitem (environ : gmap string string) (name : string) : result string :=
  match environ !! name with
  | Some v => Ok v
  | None => Raise (KeyError (PStr name))
  end.

(** The exceptions [except Exception] lets through. *)
Definition is_Exception (e : exn) : bool :=
  match e with
  | OtherError n =>
      negb (bool_decide
              (n ∈ ["SystemExit"; "KeyboardInterrupt"; "GeneratorExit"; "CancelledError"]))
  | _ => true
  end.

(** The two [if type(result) is ...] statements. *)
Definition show (res : pyval) : list printed :=
  match res with
  | PStr _ | PList _ => [Print res]
  | PDict _ => [PrintJson res]
  | _ => []
  end.

(** The [try] body after the call, then [except Exception: sys.exit(1)]. *)
Definition after_call (r : result pyval) : ending * list printed :=
  match r with
  | Ok res => (Returned, show res)
  | Raise e => if is_Exception e then (Exited 1, []) else (Uncaught e, [])
  | Hang => (Hangs, [])
  end.

(** [finally: await client.close()] on a bound client: an exception of
    [close] takes the place of the ending so far.  A [try] body that never
    completes never reaches it. *)
Definition finish {C} (close : M (C * world) unit) (e : ending) (out : list printed)
    (s : C * world) : run C :=
  match e with
  | Hangs =>
      {| ending_of := Hangs; client_of := Some s.1; stdout_of := out; world_of := s.2 |}
  | _ =>
      let '(rc, (c, w)) := close s in
      {| ending_of := match rc with Ok _ => e | Raise x => Uncaught x | Hang => Hangs end;
         client_of := Some c; stdout_of := out; world_of := w |}
  end.

(** An exception before the client is bound, outside any [try]. *)
Definition unbound {C} (e : exn) (w : world) : run C :=
  {| ending_of := Uncaught e; client_of := None; stdout_of := []; world_of := w |}.

(** A constructor that never completes. *)
Definition hung {C} (w : world) : run C :=
  {| ending_of := Hangs; client_of := None; stdout_of := []; world_of := w |}.

Definition temperature_default : float := 0x1.b333333333333p-1%float.

Definition _test_openai `{!Platform} (environ : gmap string string)
    (d : OpenAISettings.class_defaults) (srv : server) (w : world) : run OpenAIClient.t :=
  match
    rbind (environ_getitem environ "OPENAI_API_KEY") (fun key =>
    rbind (OpenAISettings.new environ d (Some key) None None None None) (fun settings =>
    OpenAIClient.init environ d (Some settings)))
  with
  | Raise e => unbound e w
  | Hang => hung w
  | Ok client =>
      let '(r, s) :=
        OpenAIClient.chat_completion srv "Tell me a simple joke." "gpt-4.1-nano"
          temperature_default true ∅ (client, w) in
      let '(e, out) := after_call r in
      finish OpenAIClient.close e out s
  end.

(** In the two other coroutines the client is built inside the [try]:
    when that fails, [finally] reads a local variable that was never
    bound. *)
Definition unbound_in_finally {C} (w : world) : run C :=
  {| ending_of := Uncaught (OtherError "UnboundLocalError");
     client_of := None; stdout_of := []; world_of := w |}.

Definition _test_perplexity `{!Platform} (environ : gmap string string)
    (d : PerplexitySettings.class_defaults) (srv : server) (w : world)
    : run PerplexityClient.t :=
  match
    rbind (environ_getitem environ "PPLX_API_KEY") (fun key =>
    rbind (PerplexitySettings.new environ d (Some key) None None None None None)
      (fun settings => PerplexityClient.init environ d (Some settings)))
  with
  | Raise _ => unbound_in_finally w
  | Hang => hung w
  | Ok client =>
      let '(r, s) :=
        PerplexityClient.chat_completion srv "Tell me how to trade using orderflow."
          "sonar-pro" (client, w) in
      let '(e, out) := after_call r in
      finish PerplexityClient.close e out s
  end.

Definition _test_anthropic `{!Platform} (environ : gmap string string)
    (d : AnthropicSettings.class_defaults) (srv : server) (w : world)
    : run AnthropicClient.t :=
  match
    rbind (environ_getitem environ "ANTHROPIC_API_KEY") (fun key =>
    rbind (AnthropicSettings.new environ d (Some key) None None None None None)
      (fun settings => AnthropicClient.init environ d "" (Some settings)))
  with
  | Raise _ => unbound_in_finally w
  | Hang => hung w
  | Ok client =>
      let '(r, s) :=
        AnthropicClient.chat_completion srv "Tell me how to trade using orderflow."
          "claude-sonnet-4-5-20250929" (Some 4096) None None ∅ (client, w) in
      let '(e, out) := after_call r in
      finish AnthropicClient.close e out s
  end.

End Main.

(** ** Further specification-side definitions *)

(** The path [data[0].embedding] of a response envelope, as a structural
    extractor. *)
Definition embedding_path (body : pyval) : option pyval :=
  match body with
  | PDict d =>
      match d !! "data" with
      | Some (PList (PDict first :: _)) => first !! "embedding"
      | _ => None
      end
  | _ => None
  end.

(** A [float] that is neither an infinity nor NaN. *)
Definition is_finite (f : float) : bool :=
  match Prim2SF f with
  | S754_zero _ | S754_finite _ _ _ => true
  | _ => false
  end.

(** The outcome of an attempt ends the loop: it is not a retriable
    failure, or the attempt is the last one. *)
Definition final_at (max_retries attempt : Z) (r : result pyval) : Prop :=
  ~ retriable r \/ attempt = max_retries.

(** A server that fails [k] times with [failure] and then answers
    [answer]. *)
Definition fails_then (k : nat) (failure answer : result pyval) : server :=
  fun i _ => if (i <? k)%nat then failure else answer.

(** What one call adds to the world [w] when it ends in [w']: [k] copies
    of its request and, between them, [k - 1] delays; one more delay, after
    the last request, only in a call that does not return a value
    ([returned = false]): the sleep it hangs in or that raises. *)
Definition adds (w w' : world) (returned : bool) (req : request) (k : nat) : Prop :=
  sent w' = sent w ++ replicate k req /\
  (length (slept w') = (length (slept w) + (k - 1))%nat \/
   returned = false /\ length (slept w') = (length (slept w) + k)%nat).

(** The number of attempts of one call: none on a closed client, with a
    negative [max_retries] or for a request httpx cannot build, else
    between one and [max_retries + 1]. *)
Definition attempts_bound `{!Platform} (cl : AsyncClient.t) (max_retries : Z)
    (req : request) (k : nat) : Prop :=
  if AsyncClient.is_closed cl || (max_retries <? 0) || negb (is_Ok (AsyncClient.build cl req))
  then k = 0%nat
  else 1 <= Z.of_nat k <= max_retries + 1.

(** The outcome of a call that starts by building [req] on the client
    [cl]: what building raises, with the world as it was, or else [out]. *)
Definition once_built `{!Platform} {A S} (cl : AsyncClient.t) (req : request)
    (s : S) (out : result A * S) : result A * S :=
  match AsyncClient.build cl req with
  | Ok _ => out
  | Raise e => (Raise e, s)
  | Hang => (Hang, s)
  end.

(** [asyncio.sleep] returns from the delay. *)
Definition returns `{!Platform} (delay : pynum) : Prop := sleep_outcome delay = Ok tt.

(** The retry after attempt [a] goes through: the delay can be computed
    and printed in the warning, and the sleep returns. *)
Definition backs_off `{!Platform} (x : pynum) (a : Z) : Prop :=
  is_Ok (rbind (num_mul_int x (2 ^ a)) format_2f) = true /\ returns (delay_of x a).

(** The entry under [k] of a dict whose literal holds [v] there (or
    nothing), after [update(kwargs)]. *)
Definition updated (kwargs : gmap string pyval) (k : string) (v : option pyval)
    : option pyval :=
  match kwargs !! k with
  | Some x => Some x
  | None => v
  end.

(** The key of an optional argument: there when the argument is not
    [None]. *)
Definition key_if {A} (k : string) (v : option A) : gset string :=
  match v with
  | Some _ => {[ k ]}
  | None => ∅
  end.

(** What [int(f)] raises on a [float] that has no integer part. *)
Definition not_a_whole_number (e : exn) : Prop :=
  e = OverflowError \/ e = ValueError "cannot convert float NaN to integer".

(** How a coroutine of [main.py] ends once its client is bound. *)
Definition ending_ok (e : Main.ending) (out : list Main.printed) : Prop :=
  match e with
  | Main.Returned => (length out <= 1)%nat
  | Main.Exited code => code = 1 /\ out = []
  | Main.Uncaught x => Main.is_Exception x = false /\ out = []
  | Main.Hangs => out = []
  end.

(** The coroutine ran to its end. *)
Definition returned (e : Main.ending) : bool :=
  match e with
  | Main.Returned => true
  | _ => false
  end.

(** [finally] has closed the client, unless the coroutine is still
    waiting inside the [try]. *)
Definition closed_at (e : Main.ending) : bool :=
  match e with
  | Main.Hangs => false
  | _ => true
  end.

(** * Properties *)

(** ** Ranges, statuses and the numbers of the back-off *)

Lemma py_range_nonpos n : n <= 0 -> py_range n = [].
Proof. intros H. unfold py_range. by replace (Z.to_nat n) with 0%nat by lia. Qed.

Lemma py_range_pos n : 0 < n -> py_range n = 0 :: map Z.succ (py_range (n - 1)).
Proof.
  intros H. unfold py_range.
  replace (Z.to_nat n) with (S (Z.to_nat (n - 1))) by lia.
  cbn [seq map]. f_equal.
  rewrite <- seq_shift, !map_map. apply map_ext. intros; lia.
Qed.

Lemma elem_of_py_range a n : 0 <= a < n -> a ∈ py_range n.
Proof.
  intros H. unfold py_range. apply list_elem_of_fmap.
  exists (Z.to_nat a). split; [lia|]. apply list_elem_of_In, in_seq. lia.
Qed.

Lemma take_py_range k n :
  take k (py_range n) = py_range (Z.of_nat (min k (Z.to_nat n))).
Proof.
  unfold py_range. rewrite <- fmap_take, take_seq. by rewrite Nat2Z.id.
Qed.

Lemma retriable_status_spec status :
  retriable_status status = true <-> status = 429 \/ 500 <= status < 600.
Proof. unfold retriable_status. lia. Qed.

Lemma retriable_status_false status :
  status <> 429 -> ~ (500 <= status < 600) -> retriable_status status = false.
Proof. unfold retriable_status. lia. Qed.

Lemma retriable_inv r :
  retriable r ->
  r = Raise RequestError \/
  exists status, r = Raise (HTTPStatusError status) /\ retriable_status status = true.
Proof. done. Qed.

Lemma final_at_stops max_retries attempt (r : result pyval) status :
  final_at max_retries attempt r ->
  r = Raise (HTTPStatusError status) ->
  (attempt <? max_retries) && retriable_status status = false.
Proof.
  intros [Hn | ->] ->; [|by rewrite Z.ltb_irrefl].
  destruct (retriable_status status) eqn:Hs; [|by rewrite andb_false_r].
  destruct Hn. right. eauto.
Qed.

Lemma final_at_stops_request max_retries attempt :
  final_at max_retries attempt (Raise RequestError) ->
  (attempt <? max_retries) = false.
Proof.
  intros [Hn | ->]; [|by rewrite Z.ltb_irrefl]. destruct Hn. by left.
Qed.

Lemma float_of_int_ok z :
  is_Ok (float_of_int z) = true ->
  float_of_int z = Ok (SF2Prim (binary_normalize prec emax z 0 false)).
Proof.
  unfold float_of_int. by destruct (binary_normalize prec emax z 0 false).
Qed.

Lemma pow2_convertible :
  forallb (fun a => is_Ok (float_of_int (2 ^ a))) (py_range 1024) = true.
Proof. vm_compute. reflexivity. Qed.

(** [2 ** a] converts to [float] up to [a = 1023]. *)
Lemma float_of_int_pow2 a :
  0 <= a < 1024 -> float_of_int (2 ^ a) = Ok (float_pow2 a).
Proof.
  intros H. apply float_of_int_ok.
  pose proof pow2_convertible as Hall.
  rewrite forallb_forall in Hall. apply Hall.
  apply list_elem_of_In. by apply elem_of_py_range.
Qed.

Lemma float_of_int_inv z g :
  float_of_int z = Ok g -> g = SF2Prim (binary_normalize prec emax z 0 false).
Proof.
  unfold float_of_int. destruct (binary_normalize prec emax z 0 false); congruence.
Qed.

Lemma num_mul_int_inv x a b : num_mul_int x (2 ^ a) = Ok b -> b = delay_of x a.
Proof.
  destruct x as [z|f]; cbn [num_mul_int delay_of].
  { unfold int_delay. congruence. }
  destruct (float_of_int (2 ^ a)) as [g| |] eqn:Hg; cbn [rbind]; [|done|done].
  apply float_of_int_inv in Hg. unfold float_delay, float_pow2. congruence.
Qed.

Lemma float_back_off bf a :
  0 <= a < 1024 ->
  num_mul_int (NFloat bf) (2 ^ a) = Ok (float_delay bf a) /\
  format_2f (float_delay bf a) = Ok tt.
Proof.
  intros H. split; [|done]. unfold num_mul_int. by rewrite float_of_int_pow2.
Qed.

Lemma int_back_off bf a :
  is_Ok (float_of_int (bf * 2 ^ a)) = true ->
  num_mul_int (NInt bf) (2 ^ a) = Ok (int_delay bf a) /\
  format_2f (int_delay bf a) = Ok tt.
Proof.
  intros H. split; [done|]. unfold format_2f, int_delay.
  by destruct (float_of_int (bf * 2 ^ a)).
Qed.

Lemma float_printable bf a :
  0 <= a < 1024 -> is_Ok (rbind (num_mul_int (NFloat bf) (2 ^ a)) format_2f) = true.
Proof. intros H. destruct (float_back_off bf a H) as [-> _]. done. Qed.

Lemma int_printable bf a :
  is_Ok (float_of_int (bf * 2 ^ a)) = true ->
  is_Ok (rbind (num_mul_int (NInt bf) (2 ^ a)) format_2f) = true.
Proof.
  intros H. cbn [num_mul_int rbind format_2f].
  by destruct (float_of_int (bf * 2 ^ a)).
Qed.

Lemma new_requests_same w : new_requests w w = [].
Proof. unfold new_requests. by rewrite drop_all. Qed.

Lemma new_requests_app w w' l : sent w' = sent w ++ l -> new_requests w w' = l.
Proof. intros H. unfold new_requests. by rewrite H, drop_app_length. Qed.

(** Strings as conditions, and the environment. *)

Lemma str_falsy_true s : str_falsy s = true <-> s = "".
Proof. unfold str_falsy. by case_decide. Qed.

Lemma str_falsy_false s : str_falsy s = false <-> s <> "".
Proof. unfold str_falsy. by case_decide. Qed.

Lemma getenv_None environ name dflt :
  environ !! name = None -> getenv environ name dflt = dflt.
Proof. intros H. unfold getenv. by rewrite H. Qed.

Lemma getenv_Some environ name dflt v :
  environ !! name = Some v -> getenv environ name dflt = v.
Proof. intros H. unfold getenv. by rewrite H. Qed.

(** Rewriting with what is known of [not s] on a [str]. *)
Ltac validate_tac :=
  repeat match goal with
  | H : _ = "" |- _ => apply str_falsy_true in H
  | H : _ <> "" |- _ => apply str_falsy_false in H
  end;
  repeat match goal with
  | H : str_falsy _ = _ |- _ => progress (cbn in H; try rewrite H)
  end; cbn;
  repeat match goal with
  | H : str_falsy _ = _ |- _ => rewrite H
  end; try done.

Section retry.
Context {platform : Platform}.

(** ** Sleeping *)

(** An [int] that the warning could print is a delay the sleep returns
    from. *)
Lemma int_returns z : is_Ok (float_of_int z) = true -> returns (NInt z).
Proof.
  intros H. unfold returns, sleep_outcome.
  destruct (z <=? 0); [done|]. by destruct (float_of_int z).
Qed.

(** So is a finite [float]. *)
Lemma float_returns f : is_finite f = true -> returns (NFloat f).
Proof.
  unfold returns, sleep_outcome, is_finite. by destruct (Prim2SF f).
Qed.

Lemma int_backs_off bf a :
  is_Ok (float_of_int (bf * 2 ^ a)) = true -> backs_off (NInt bf) a.
Proof.
  intros H. split; [by apply int_printable|]. by apply int_returns.
Qed.

Lemma float_backs_off bf a :
  0 <= a < 1024 -> returns (float_delay bf a) -> backs_off (NFloat bf) a.
Proof. intros Ha H. split; [by apply float_printable|done]. Qed.

(** ** The httpx client *)

Lemma request_once_built srv cl req w :
  AsyncClient.request srv cl req w
  = once_built cl req w
      (if AsyncClient.is_closed cl then (Raise (RuntimeError AsyncClient.closed_msg), w)
       else (srv (length (sent w)) req,
             {| sent := sent w ++ [req]; slept := slept w |})).
Proof.
  unfold AsyncClient.request, once_built. by destruct (AsyncClient.build cl req).
Qed.

Lemma request_open srv cl req w :
  AsyncClient.build cl req = Ok tt -> AsyncClient.is_closed cl = false ->
  AsyncClient.request srv cl req w
  = (srv (length (sent w)) req, {| sent := sent w ++ [req]; slept := slept w |}).
Proof. intros Hb Hc. unfold AsyncClient.request. by rewrite Hb, Hc. Qed.

(** Nothing is sent on a closed client or for a request that cannot be
    built, and what is raised then is not a value. *)
Lemma request_refused srv cl req w :
  AsyncClient.is_closed cl = true \/ is_Ok (AsyncClient.build cl req) = false ->
  exists r, is_Ok r = false /\ AsyncClient.request srv cl req w = (r, w).
Proof.
  intros Hc. unfold AsyncClient.request.
  destruct (AsyncClient.build cl req) as [[]|e|];
    [|by exists (Raise e)|by exists Hang].
  destruct Hc as [->|?]; [|done].
  by exists (Raise (RuntimeError AsyncClient.closed_msg)).
Qed.

Lemma is_Ok_built cl req :
  is_Ok (AsyncClient.build cl req) = true -> AsyncClient.build cl req = Ok tt.
Proof. by destruct (AsyncClient.build cl req) as [[]| |]. Qed.

Lemma sendable_or_not cl req :
  AsyncClient.is_closed cl = false /\ AsyncClient.build cl req = Ok tt \/
  (AsyncClient.is_closed cl = true \/ is_Ok (AsyncClient.build cl req) = false).
Proof.
  destruct (AsyncClient.is_closed cl); [by right; left|].
  destruct (AsyncClient.build cl req) as [[]| |]; [by left|by right; right..].
Qed.

(** Closing does not change what can be built. *)
Lemma build_aclose cl req : AsyncClient.build (AsyncClient.aclose cl) req = AsyncClient.build cl req.
Proof. reflexivity. Qed.

(** ** The retry loop *)

(** A retry never touches the request log. *)
Lemma back_off_sent x a w : sent (back_off x a w).2 = sent w.
Proof.
  unfold back_off, bind, lift, sleep.
  destruct (num_mul_int x (2 ^ a)) as [b| |]; [|done..].
  destruct (format_2f b) as [[]| |]; [|done..].
  by destruct (sleep_outcome b) as [[]| |].
Qed.

(** A retry that goes through adds its delay to the sleep log. *)
Lemma back_off_run x a w :
  backs_off x a ->
  back_off x a w = (Ok tt, {| sent := sent w; slept := slept w ++ [delay_of x a] |}).
Proof.
  intros [Hp Hr]. unfold back_off, bind, lift, sleep.
  destruct (num_mul_int x (2 ^ a)) as [b| |] eqn:Hb; [|done..].
  apply num_mul_int_inv in Hb as ->. cbn [rbind] in Hp.
  destruct (format_2f (delay_of x a)) as [[]| |]; [|done..].
  unfold returns in Hr. by rewrite Hr.
Qed.

(** In general a retry sleeps [self.backoff_factor * 2 ** attempt]; when
    that number cannot be computed or printed it raises before the sleep;
    and the sleep itself may raise or never return. *)
Lemma back_off_slept x a w :
  back_off x a w = (Ok tt, {| sent := sent w; slept := slept w ++ [delay_of x a] |}) \/
  (exists r, is_Ok r = false /\ back_off x a w = (r, w)) \/
  (exists r, is_Ok r = false /\
     back_off x a w = (r, {| sent := sent w; slept := slept w ++ [delay_of x a] |})).
Proof.
  unfold back_off, bind, lift, sleep.
  destruct (num_mul_int x (2 ^ a)) as [b|e|] eqn:Hb;
    [|right; left; by exists (Raise e)|right; left; by exists Hang].
  apply num_mul_int_inv in Hb as ->.
  destruct (format_2f (delay_of x a)) as [[]|e|];
    [|right; left; by exists (Raise e)|right; left; by exists Hang].
  destruct (sleep_outcome (delay_of x a)) as [[]|e|];
    [by left|right; right; by exists (Raise e)|right; right; by exists Hang].
Qed.

Lemma back_off_overflow bf w : back_off (NFloat bf) 1024 w = (Raise OverflowError, w).
Proof. reflexivity. Qed.

(** One turn of the [for] loop. *)
Lemma retry_loop_cons srv cl max_retries backoff_factor req attempt rest w :
  retry_loop srv cl max_retries backoff_factor req (attempt :: rest) w
  = match AsyncClient.request srv cl req w with
    | (Ok body, w') => (Ok body, w')
    | (Raise (HTTPStatusError status), w') =>
        if (attempt <? max_retries) && retriable_status status then
          bind (back_off backoff_factor attempt)
               (fun _ => retry_loop srv cl max_retries backoff_factor req rest) w'
        else (Raise (HTTPStatusError status), w')
    | (Raise RequestError, w') =>
        if attempt <? max_retries then
          bind (back_off backoff_factor attempt)
               (fun _ => retry_loop srv cl max_retries backoff_factor req rest) w'
        else (Raise RequestError, w')
    | (Raise e, w') => (Raise e, w')
    | (Hang, w') => (Hang, w')
    end.
Proof. reflexivity. Qed.

(** A turn that sends nothing ends the loop. *)
Lemma retry_loop_refused srv cl max_retries backoff_factor req attempt rest w :
  AsyncClient.is_closed cl = true \/ is_Ok (AsyncClient.build cl req) = false ->
  exists r, is_Ok r = false /\
    retry_loop srv cl max_retries backoff_factor req (attempt :: rest) w = (r, w) /\
    AsyncClient.request srv cl req w = (r, w).
Proof.
  intros Hc. rewrite retry_loop_cons. unfold AsyncClient.request.
  destruct (AsyncClient.build cl req) as [[]|e|] eqn:Hb; [| |by exists Hang].
  - destruct Hc as [->|?]; [|done].
    by exists (Raise (RuntimeError AsyncClient.closed_msg)).
  - apply httpx_build_uncaught in Hb. exists (Raise e). by destruct e.
Qed.

Section loop.
Context (srv : server) (cl : AsyncClient.t) (max_retries : Z)
  (backoff_factor : pynum) (req : request).

(** An empty range: no attempt, and the coroutine returns [None]. *)
Lemma request_with_retry_negative w :
  max_retries < 0 ->
  request_with_retry srv cl max_retries backoff_factor req w = (Ok PNone, w).
Proof.
  intros H. unfold request_with_retry. by rewrite py_range_nonpos by lia.
Qed.

(** Each turn starts by building the request: what that raises leaves
    the loop, with nothing sent. *)
Lemma retry_loop_once_built a rest w :
  retry_loop srv cl max_retries backoff_factor req (a :: rest) w
  = once_built cl req w (retry_loop srv cl max_retries backoff_factor req (a :: rest) w).
Proof.
  unfold once_built. rewrite retry_loop_cons. unfold AsyncClient.request.
  destruct (AsyncClient.build cl req) as [[]|e|] eqn:Hb; [done| |done].
  apply httpx_build_uncaught in Hb. by destruct e.
Qed.

Lemma request_with_retry_once_built w :
  0 <= max_retries ->
  request_with_retry srv cl max_retries backoff_factor req w
  = once_built cl req w (request_with_retry srv cl max_retries backoff_factor req w).
Proof.
  intros Hn. unfold request_with_retry. rewrite py_range_pos by lia.
  apply retry_loop_once_built.
Qed.

(** A closed client then raises at the first attempt. *)
Lemma request_with_retry_closed w :
  0 <= max_retries -> AsyncClient.is_closed cl = true ->
  request_with_retry srv cl max_retries backoff_factor req w
  = once_built cl req w (Raise (RuntimeError AsyncClient.closed_msg), w).
Proof.
  intros Hn Hc. rewrite request_with_retry_once_built by done.
  unfold once_built. destruct (AsyncClient.build cl req) as [[]|e|] eqn:Hb; [|done..].
  unfold request_with_retry. rewrite py_range_pos by lia.
  rewrite retry_loop_cons. unfold AsyncClient.request. by rewrite Hb, Hc.
Qed.

Hypothesis built : AsyncClient.build cl req = Ok tt.
Hypothesis open : AsyncClient.is_closed cl = false.

(** What the first attempt does on an open client when the answer is a
    success. *)
Lemma request_with_retry_first_ok w body :
  0 <= max_retries ->
  srv (length (sent w)) req = Ok body ->
  request_with_retry srv cl max_retries backoff_factor req w
  = (Ok body, {| sent := sent w ++ [req]; slept := slept w |}).
Proof.
  intros H Hs. unfold request_with_retry. rewrite py_range_pos by lia.
  rewrite retry_loop_cons, request_open by done. by rewrite Hs.
Qed.

(** A status outside 429 and 500..599 ends the loop at once. *)
Lemma request_with_retry_terminal w status :
  0 <= max_retries ->
  retriable_status status = false ->
  srv (length (sent w)) req = Raise (HTTPStatusError status) ->
  request_with_retry srv cl max_retries backoff_factor req w
  = (Raise (HTTPStatusError status), {| sent := sent w ++ [req]; slept := slept w |}).
Proof.
  intros H Hr Hs. unfold request_with_retry. rewrite py_range_pos by lia.
  rewrite retry_loop_cons, request_open by done. rewrite Hs, Hr.
  by rewrite andb_false_r.
Qed.

(** One retriable failure before the last attempt: the delay, then the
    rest of the loop. *)
Lemma retry_loop_retry (a : Z) rest w :
  retriable (srv (length (sent w)) req) -> a < max_retries ->
  retry_loop srv cl max_retries backoff_factor req (a :: rest) w
  = bind (back_off backoff_factor a)
      (fun _ => retry_loop srv cl max_retries backoff_factor req rest)
      {| sent := sent w ++ [req]; slept := slept w |}.
Proof.
  intros Hr Ha. rewrite retry_loop_cons, request_open by done.
  assert (Hlt : (a <? max_retries) = true) by (apply Z.ltb_lt; lia).
  destruct (retriable_inv _ Hr) as [->|(s & -> & Hs)].
  - by rewrite Hlt.
  - by rewrite Hlt, Hs.
Qed.

(** An attempt whose outcome ends the loop. *)
Lemma retry_loop_final (a : Z) rest w :
  final_at max_retries a (srv (length (sent w)) req) ->
  retry_loop srv cl max_retries backoff_factor req (a :: rest) w
  = (srv (length (sent w)) req, {| sent := sent w ++ [req]; slept := slept w |}).
Proof.
  intros Hfinal. rewrite retry_loop_cons, request_open by done.
  destruct (srv (length (sent w)) req) as [body|e|] eqn:Hr; [done| |done].
  destruct e; try done.
  - by rewrite (final_at_stops _ _ _ _ Hfinal eq_refl).
  - by rewrite (final_at_stops_request _ _ Hfinal).
Qed.

(** After [k] retriable failures whose retries go through, the loop is at
    attempt [a0 + k], with [k] requests sent and [k] delays slept. *)
Lemma retry_loop_prefix k : forall (a0 n : nat) w,
  (forall i, (i < k)%nat -> retriable (srv (length (sent w) + i)%nat req)) ->
  Z.of_nat (a0 + k) <= max_retries ->
  (forall a, Z.of_nat a0 <= a < Z.of_nat (a0 + k) -> backs_off backoff_factor a) ->
  retry_loop srv cl max_retries backoff_factor req (map Z.of_nat (seq a0 (k + n))) w
  = retry_loop srv cl max_retries backoff_factor req (map Z.of_nat (seq (a0 + k) n))
      {| sent := sent w ++ replicate k req;
         slept := slept w ++ map (fun a => delay_of backoff_factor (Z.of_nat a)) (seq a0 k) |}.
Proof.
  induction k as [|k IH]; intros a0 n w Hfail Hle Hd.
  { cbn [seq map replicate Nat.add]. rewrite !app_nil_r, Nat.add_0_r. by destruct w. }
  cbn [Nat.add seq map].
  pose proof (Hfail 0%nat ltac:(lia)) as H0. rewrite Nat.add_0_r in H0.
  rewrite retry_loop_retry by (done || lia).
  unfold bind. rewrite back_off_run by (apply Hd; lia). cbn [sent slept].
  rewrite (IH (S a0) n); cbn [sent slept].
  - rewrite <- !app_assoc. cbn [replicate app].
    by replace (S a0 + k)%nat with (a0 + S k)%nat by lia.
  - intros i Hi. rewrite length_app. cbn [length].
    replace (length (sent w) + 1 + i)%nat with (length (sent w) + S i)%nat by lia.
    apply Hfail. lia.
  - lia.
  - intros a Ha. apply Hd. lia.
Qed.

(** The loop returns the outcome of the first attempt that ends it. *)
Lemma request_with_retry_first_final (k : nat) w :
  Z.of_nat k <= max_retries ->
  (forall i, (i < k)%nat -> retriable (srv (length (sent w) + i)%nat req)) ->
  final_at max_retries (Z.of_nat k) (srv (length (sent w) + k)%nat req) ->
  (forall a, 0 <= a < Z.of_nat k -> backs_off backoff_factor a) ->
  request_with_retry srv cl max_retries backoff_factor req w
  = (srv (length (sent w) + k)%nat req,
     {| sent := sent w ++ replicate (S k) req;
        slept := slept w ++ map (delay_of backoff_factor) (py_range (Z.of_nat k)) |}).
Proof.
  intros Hk Hfail Hfinal Hd. unfold request_with_retry, py_range at 1.
  replace (Z.to_nat (max_retries + 1))
    with (k + S (Z.to_nat max_retries - k))%nat by lia.
  rewrite (retry_loop_prefix k 0) by (done || lia || (intros a Ha; apply Hd; lia)).
  rewrite Nat.add_0_l, <- cons_seq, fmap_cons.
  rewrite retry_loop_final; cbn [sent slept];
    rewrite ?length_app, ?length_replicate; [|done].
  rewrite <- app_assoc, <- replicate_cons_app. unfold py_range.
  by rewrite Nat2Z.id, <- map_map.
Qed.

(** With a server that keeps failing in a retriable way all the attempts
    [0, ..., max_retries] are made, a delay is slept after each but the
    last, and the last failure is raised. *)
Lemma request_with_retry_exhausts w :
  0 <= max_retries ->
  (forall i, retriable (srv i req)) ->
  (forall a, 0 <= a < max_retries -> backs_off backoff_factor a) ->
  request_with_retry srv cl max_retries backoff_factor req w
  = (srv (length (sent w) + Z.to_nat max_retries)%nat req,
     {| sent := sent w ++ replicate (Z.to_nat max_retries + 1) req;
        slept := slept w ++ map (delay_of backoff_factor) (py_range max_retries) |}).
Proof.
  intros Hn Hfail Hd.
  rewrite (request_with_retry_first_final (Z.to_nat max_retries) w).
  - rewrite Nat.add_1_r. by rewrite Z2Nat.id.
  - lia.
  - intros i _. apply Hfail.
  - right. lia.
  - intros a Ha. apply Hd. lia.
Qed.

End loop.

(** The loop sends the same request over and over, at most once per
    attempt. *)
Lemma retry_loop_sent srv cl max_retries backoff_factor req attempts w :
  exists k, (k <= length attempts)%nat /\
    sent (retry_loop srv cl max_retries backoff_factor req attempts w).2
    = sent w ++ replicate k req.
Proof.
  revert w. induction attempts as [|a rest IH]; intros w.
  { exists 0%nat. split; [done|]. by rewrite app_nil_r. }
  assert (Hone : forall r : result pyval,
    exists k, (k <= length (a :: rest))%nat /\
      sent (r, {| sent := sent w ++ [req]; slept := slept w |}).2
      = sent w ++ replicate k req).
  { intros r. exists 1%nat. split; [simpl; lia|done]. }
  assert (Hretry :
    exists k, (k <= length (a :: rest))%nat /\
      sent (bind (back_off backoff_factor a)
              (fun _ => retry_loop srv cl max_retries backoff_factor req rest)
              {| sent := sent w ++ [req]; slept := slept w |}).2
      = sent w ++ replicate k req).
  { unfold bind.
    pose proof (back_off_sent backoff_factor a
                  {| sent := sent w ++ [req]; slept := slept w |}) as Hb.
    destruct (back_off backoff_factor a _) as [[[]|e|] w2]; cbn [snd sent] in *.
    - destruct (IH w2) as (k & Hk & Hs). exists (S k). split; [simpl; lia|].
      rewrite Hs, Hb. by rewrite <- app_assoc.
    - exists 1%nat. split; [simpl; lia|]. by rewrite Hb.
    - exists 1%nat. split; [simpl; lia|]. by rewrite Hb. }
  destruct (sendable_or_not cl req) as [[Ho Hb]|Hno].
  - rewrite retry_loop_cons, request_open by done.
    destruct (srv (length (sent w)) req) as [body|e|]; [by apply Hone| |by apply Hone].
    destruct e; try by apply Hone.
    + destruct (_ && _); [by apply Hretry|by apply Hone].
    + destruct (_ <? _); [by apply Hretry|by apply Hone].
  - destruct (retry_loop_refused srv cl max_retries backoff_factor req a rest w Hno)
      as (r & _ & -> & _).
    exists 0%nat. split; [lia|]. by rewrite app_nil_r.
Qed.

(** Whatever the server answers, the delays handed to [asyncio.sleep] by
    the loop are those of the first attempts, in order, none of them the
    attempt [max_retries]. *)
Lemma retry_loop_slept srv cl max_retries x req attempts : forall w,
  exists k,
    Forall (fun a => a < max_retries) (take k attempts) /\
    slept (retry_loop srv cl max_retries x req attempts w).2
    = slept w ++ map (delay_of x) (take k attempts).
Proof.
  induction attempts as [|a rest IH]; intros w.
  { exists 0%nat. split; [by apply Forall_nil|]. by rewrite app_nil_r. }
  assert (Hstop : forall (r : result pyval) w1, slept w1 = slept w ->
    exists k, Forall (fun a => a < max_retries) (take k (a :: rest)) /\
      slept (r, w1).2 = slept w ++ map (delay_of x) (take k (a :: rest))).
  { intros r w1 Hw1. exists 0%nat. split; [by apply Forall_nil|].
    cbn. by rewrite app_nil_r. }
  assert (Hretry : forall w1, slept w1 = slept w -> a < max_retries ->
    exists k, Forall (fun a => a < max_retries) (take k (a :: rest)) /\
      slept (bind (back_off x a)
               (fun _ => retry_loop srv cl max_retries x req rest) w1).2
      = slept w ++ map (delay_of x) (take k (a :: rest))).
  { intros w1 Hw1 Ha. unfold bind.
    destruct (back_off_slept x a w1) as [->|[(r & Hr & ->)|(r & Hr & ->)]].
    - destruct (IH {| sent := sent w1; slept := slept w1 ++ [delay_of x a] |})
        as (k & Hk & Hs).
      exists (S k). split; [by apply Forall_cons|].
      rewrite Hs. cbn [slept take map]. by rewrite Hw1, <- app_assoc.
    - destruct r as [[]|e|]; [done|by apply (Hstop (Raise e))|by apply (Hstop Hang)].
    - exists 1%nat. split; [by apply Forall_cons; split; [|apply Forall_nil]|].
      destruct r as [[]|e|]; [done|..]; cbn; by rewrite Hw1. }
  destruct (sendable_or_not cl req) as [[Ho Hb]|Hno]; cycle 1.
  { destruct (retry_loop_refused srv cl max_retries x req a rest w Hno)
      as (r & _ & -> & _). by apply Hstop. }
  rewrite retry_loop_cons, request_open by done.
  destruct (srv (length (sent w)) req) as [body|e|]; [by apply Hstop| |by apply Hstop].
  destruct e; try by apply Hstop.
  - destruct (a <? max_retries) eqn:Ha; cbn [andb]; [|by apply Hstop].
    destruct (retriable_status status); [|by apply Hstop].
    apply Hretry; [done|]. by apply Z.ltb_lt.
  - destruct (a <? max_retries) eqn:Ha; [|by apply Hstop].
    apply Hretry; [done|]. by apply Z.ltb_lt.
Qed.

(** The delays handed to [asyncio.sleep] by one [_request], whatever the
    server answers: [self.backoff_factor * 2 ** a] for
    [a = 0, 1, ..., k - 1], with [k <= max_retries]. *)
Lemma request_with_retry_slept srv cl max_retries x req w :
  exists k,
    0 <= k <= Z.max 0 max_retries /\
    slept (request_with_retry srv cl max_retries x req w).2
    = slept w ++ map (delay_of x) (py_range k).
Proof.
  unfold request_with_retry.
  destruct (retry_loop_slept srv cl max_retries x req (py_range (max_retries + 1)) w)
    as (k & Hlt & Hs).
  rewrite take_py_range in Hlt, Hs.
  set (j := Z.of_nat (min k (Z.to_nat (max_retries + 1)))) in *.
  exists j. split; [|done]. split; [lia|].
  destruct (decide (j <= 0)) as [|Hpos]; [lia|].
  rewrite Forall_forall in Hlt. specialize (Hlt (j - 1)).
  assert (j - 1 < max_retries); [|lia].
  apply Hlt, list_elem_of_In, list_elem_of_In, elem_of_py_range. lia.
Qed.

(** Requests and sleeps of the loop over the attempts [a0, ..., max_retries]
    when requests can be sent. *)
Lemma retry_loop_accounting srv cl max_retries backoff_factor req :
  AsyncClient.is_closed cl = false -> AsyncClient.build cl req = Ok tt ->
  forall n (a0 : nat) w,
    Z.of_nat (a0 + n) = max_retries ->
    exists k,
      (1 <= k <= S n)%nat /\
      adds w (retry_loop srv cl max_retries backoff_factor req
                (map Z.of_nat (seq a0 (S n))) w).2
        (is_Ok (retry_loop srv cl max_retries backoff_factor req
                  (map Z.of_nat (seq a0 (S n))) w).1) req k.
Proof.
  intros Ho Hb n. induction n as [|n IH]; intros a0 w Hn.
  all: cbn [seq map]; rewrite retry_loop_cons, request_open by done.
  all: set (w1 := {| sent := sent w ++ [req]; slept := slept w |}).
  all: assert (Hone : forall r : result pyval, forall m,
         exists k, (1 <= k <= S m)%nat /\ adds w (r, w1).2 (is_Ok (r, w1).1) req k)
         by (intros r m; exists 1%nat; split; [lia|];
             split; [done|left; cbn; lia]).
  - assert (Hlt : (Z.of_nat a0 <? max_retries) = false) by (apply Z.ltb_ge; lia).
    rewrite Hlt. cbn [andb].
    destruct (srv (length (sent w)) req) as [body|e|]; [by apply Hone| |by apply Hone].
    destruct e; by apply Hone.
  - assert (Hretry :
      let out := bind (back_off backoff_factor (Z.of_nat a0))
                   (fun _ => retry_loop srv cl max_retries backoff_factor req
                               (Z.of_nat (S a0) :: map Z.of_nat (seq (S (S a0)) n))) w1 in
      exists k, (1 <= k <= S (S n))%nat /\ adds w out.2 (is_Ok out.1) req k).
    { cbv zeta. unfold bind.
      destruct (back_off_slept backoff_factor (Z.of_nat a0) w1)
        as [->|[(r & Hr & ->)|(r & Hr & ->)]].
      - destruct (IH (S a0) {| sent := sent w1;
                               slept := slept w1 ++ [delay_of backoff_factor (Z.of_nat a0)] |})
          as (k & Hk & Hs & Hl); [lia|].
        subst w1. cbn [seq map sent slept] in *.
        exists (S k). split; [lia|]. split.
        + rewrite Hs. cbn [replicate]. by rewrite <- app_assoc.
        + rewrite length_app in Hl. cbn [length] in Hl.
          destruct Hl as [Hl|[Hr Hl]]; [left|right; split; [done|]]; lia.
      - destruct r as [[]|e|]; [done|by apply (Hone (Raise e))|by apply (Hone Hang)].
      - exists 1%nat. split; [lia|].
        destruct r as [[]|e|]; [done|..]; (split; [done|right]);
          (split; [done|]); cbn; rewrite length_app; cbn; lia. }
    destruct (srv (length (sent w)) req) as [body|e|]; [by apply Hone| |by apply Hone].
    destruct e; try by apply Hone.
    + destruct (_ && _); [exact Hretry|by apply Hone].
    + destruct (_ <? _); [exact Hretry|by apply Hone].
Qed.

(** What one call adds to the world, whatever the server answers. *)
Lemma request_with_retry_adds srv cl max_retries backoff_factor req w :
  let out := request_with_retry srv cl max_retries backoff_factor req w in
  exists k, adds w out.2 (is_Ok out.1) req k /\ attempts_bound cl max_retries req k.
Proof.
  cbv zeta. unfold attempts_bound.
  destruct (Z.ltb_spec max_retries 0) as [Hneg|Hpos].
  { rewrite request_with_retry_negative by done. exists 0%nat.
    rewrite orb_true_r. cbn [orb]. split; [|done].
    split; [by rewrite app_nil_r|left; cbn; lia]. }
  rewrite orb_false_r.
  destruct (sendable_or_not cl req) as [[Ho Hb]|Hno].
  - rewrite Ho, Hb. cbn [orb negb is_Ok]. unfold request_with_retry, py_range.
    replace (Z.to_nat (max_retries + 1)) with (S (Z.to_nat max_retries)) by lia.
    destruct (retry_loop_accounting srv cl max_retries backoff_factor req Ho Hb
                (Z.to_nat max_retries) 0 w) as (k & Hk & Hadds); [lia|].
    exists k. split; [done|lia].
  - assert (Hif : AsyncClient.is_closed cl
                  || negb (is_Ok (AsyncClient.build cl req)) = true).
    { destruct Hno as [->| ->]; [done|by rewrite orb_true_r]. }
    rewrite Hif. unfold request_with_retry. rewrite py_range_pos by lia.
    destruct (retry_loop_refused srv cl max_retries backoff_factor req 0
                (map Z.succ (py_range (max_retries + 1 - 1))) w Hno) as (r & _ & -> & _).
    exists 0%nat. split; [|done].
    split; [by rewrite app_nil_r|left; cbn; lia].
Qed.

End retry.

Section clients.
Context {platform : Platform}.

(** * OpenAIClient._request *)

(** With at most 1024 retries and delays that [asyncio.sleep] returns
    from, the loop is exhausted as the comment of the source says:
    attempts [0, 1, ..., max_retries], the delays
    [backoff_factor * 2 ** attempt] in between, and the last failure
    raised. *)
Lemma openai_request_exhausts srv self method path json params w :
  let req := {| req_method := method; req_path := path;
                req_json := json; req_params := params |} in
  let n := Z.to_nat (OpenAIClient.max_retries self) in
  AsyncClient.build (OpenAIClient._client self) req = Ok tt ->
  AsyncClient.is_closed (OpenAIClient._client self) = false ->
  0 <= OpenAIClient.max_retries self <= 1024 ->
  (forall a, 0 <= a < OpenAIClient.max_retries self ->
     returns (float_delay (OpenAIClient.backoff_factor self) a)) ->
  (forall i r, retriable (srv i r)) ->
  OpenAIClient._request srv self method path json params w
  = (srv (length (sent w) + n)%nat req,
     {| sent := sent w ++ replicate (n + 1) req;
        slept := slept w ++ map (float_delay (OpenAIClient.backoff_factor self))
                              (py_range (OpenAIClient.max_retries self)) |}).
Proof.
  intros req n Hbuilt Hopen Hn Hret Hsrv. unfold OpenAIClient._request.
  apply (request_with_retry_exhausts srv _ _ (NFloat _) req); [done|done|lia|by intros i|].
  intros a Ha. apply float_backs_off; [lia|by apply Hret].
Qed.

(** The same for the two clients whose factor is an [int], as long as
    every delay can be printed in the warning. *)
Lemma anthropic_request_exhausts srv self method path json w :
  let req := {| req_method := method; req_path := path;
                req_json := json; req_params := None |} in
  let n := Z.to_nat (AnthropicClient.max_retries self) in
  AsyncClient.build (AnthropicClient._client self) req = Ok tt ->
  AsyncClient.is_closed (AnthropicClient._client self) = false ->
  0 <= AnthropicClient.max_retries self ->
  (forall a, 0 <= a < AnthropicClient.max_retries self ->
     is_Ok (float_of_int (AnthropicClient.backoff_factor self * 2 ^ a)) = true) ->
  (forall i r, retriable (srv i r)) ->
  AnthropicClient._request srv self method path json w
  = (srv (length (sent w) + n)%nat req,
     {| sent := sent w ++ replicate (n + 1) req;
        slept := slept w ++ map (int_delay (AnthropicClient.backoff_factor self))
                              (py_range (AnthropicClient.max_retries self)) |}).
Proof.
  intros req n Hbuilt Hopen Hn Hfmt Hsrv. unfold AnthropicClient._request.
  apply (request_with_retry_exhausts srv _ _ (NInt _) req); [done|done|lia|by intros i|].
  intros a Ha. apply int_backs_off. by apply Hfmt.
Qed.

Lemma perplexity_request_exhausts srv self method path json w :
  let req := {| req_method := method; req_path := path;
                req_json := json; req_params := None |} in
  let n := Z.to_nat (PerplexityClient.max_retries self) in
  AsyncClient.build (PerplexityClient._client self) req = Ok tt ->
  AsyncClient.is_closed (PerplexityClient._client self) = false ->
  0 <= PerplexityClient.max_retries self ->
  (forall a, 0 <= a < PerplexityClient.max_retries self ->
     is_Ok (float_of_int (PerplexityClient.backoff_factor self * 2 ^ a)) = true) ->
  (forall i r, retriable (srv i r)) ->
  PerplexityClient._request srv self method path json w
  = (srv (length (sent w) + n)%nat req,
     {| sent := sent w ++ replicate (n + 1) req;
        slept := slept w ++ map (int_delay (PerplexityClient.backoff_factor self))
                              (py_range (PerplexityClient.max_retries self)) |}).
Proof.
  intros req n Hbuilt Hopen Hn Hfmt Hsrv. unfold PerplexityClient._request.
  apply (request_with_retry_exhausts srv _ _ (NInt _) req); [done|done|lia|by intros i|].
  intros a Ha. apply int_backs_off. by apply Hfmt.
Qed.

(** The delays of each client, whatever the server answers. *)
Lemma openai_request_delays srv self method path json params w :
  exists k,
    0 <= k <= Z.max 0 (OpenAIClient.max_retries self) /\
    slept (OpenAIClient._request srv self method path json params w).2
    = slept w ++ map (float_delay (OpenAIClient.backoff_factor self)) (py_range k).
Proof. apply request_with_retry_slept. Qed.

Lemma anthropic_request_delays srv self method path json w :
  exists k,
    0 <= k <= Z.max 0 (AnthropicClient.max_retries self) /\
    slept (AnthropicClient._request srv self method path json w).2
    = slept w ++ map (int_delay (AnthropicClient.backoff_factor self)) (py_range k).
Proof. apply request_with_retry_slept. Qed.

Lemma perplexity_request_delays srv self method path json w :
  exists k,
    0 <= k <= Z.max 0 (PerplexityClient.max_retries self) /\
    slept (PerplexityClient._request srv self method path json w).2
    = slept w ++ map (int_delay (PerplexityClient.backoff_factor self)) (py_range k).
Proof. apply request_with_retry_slept. Qed.

(** The factor each client keeps: the [float] of the settings in
    [OpenAIClient], its integer part in the two others. *)
Lemma openai_init_backoff environ d s c :
  OpenAIClient.init environ d (Some s) = Ok c ->
  OpenAIClient.backoff_factor c = OpenAISettings.backoff_factor s.
Proof.
  unfold OpenAIClient.init, AsyncClient.new, rbind. intros Hc.
  repeat case_match; simplify_eq; done.
Qed.

Lemma anthropic_init_backoff environ d prompt s c :
  AnthropicClient.init environ d prompt (Some s) = Ok c ->
  int_of_float (AnthropicSettings.backoff_factor s) = Ok (AnthropicClient.backoff_factor c).
Proof.
  unfold AnthropicClient.init, rbind. intros H.
  repeat case_match; simplify_eq; done.
Qed.

Lemma perplexity_init_backoff environ d s c :
  PerplexityClient.init environ d (Some s) = Ok c ->
  int_of_float (PerplexitySettings.backoff_factor s)
  = Ok (PerplexityClient.backoff_factor c).
Proof.
  unfold PerplexityClient.init, rbind. intros H.
  repeat case_match; simplify_eq; done.
Qed.


(** C3: whatever the non-negative [max_retries] is, when the first
    attempt of [_request] on an open client, for a request httpx can
    build, is answered with a status that is neither 429 nor in 500..599,
    that attempt is the only one, nothing is slept, and the failure is
    raised to the caller. *)
Theorem terminal_status_single_attempt srv self method path json params w status :
  let req := {| req_method := method; req_path := path;
                req_json := json; req_params := params |} in
  0 <= OpenAIClient.max_retries self ->
  AsyncClient.is_closed (OpenAIClient._client self) = false ->
  AsyncClient.build (OpenAIClient._client self) req = Ok tt ->
  srv (length (sent w)) req = Raise (HTTPStatusError status) ->
  400 <= status -> status <> 429 -> ~ (500 <= status < 600) ->
  OpenAIClient._request srv self method path json params w
  = (Raise (HTTPStatusError status),
     {| sent := sent w ++ [req]; slept := slept w |}).
Proof.
  intros req Hn Hopen Hbuilt Hsrv _ H429 H5xx.
  unfold OpenAIClient._request. fold req.
  apply request_with_retry_terminal; try done.
  by apply retriable_status_false.
Qed.

(** The same holds of the two other clients. *)
Lemma anthropic_terminal_status srv self method path json w status :
  let req := {| req_method := method; req_path := path;
                req_json := json; req_params := None |} in
  0 <= AnthropicClient.max_retries self ->
  AsyncClient.is_closed (AnthropicClient._client self) = false ->
  AsyncClient.build (AnthropicClient._client self) req = Ok tt ->
  retriable_status status = false ->
  srv (length (sent w)) req = Raise (HTTPStatusError status) ->
  AnthropicClient._request srv self method path json w
  = (Raise (HTTPStatusError status), {| sent := sent w ++ [req]; slept := slept w |}).
Proof. intros. by apply request_with_retry_terminal. Qed.

Lemma perplexity_terminal_status srv self method path json w status :
  let req := {| req_method := method; req_path := path;
                req_json := json; req_params := None |} in
  0 <= PerplexityClient.max_retries self ->
  AsyncClient.is_closed (PerplexityClient._client self) = false ->
  AsyncClient.build (PerplexityClient._client self) req = Ok tt ->
  retriable_status status = false ->
  srv (length (sent w)) req = Raise (HTTPStatusError status) ->
  PerplexityClient._request srv self method path json w
  = (Raise (HTTPStatusError status), {| sent := sent w ++ [req]; slept := slept w |}).
Proof. intros. by apply request_with_retry_terminal. Qed.

(** * Unwrapping the answer *)

Lemma getitem_raises obj k e : getitem obj k = Raise e -> lookup_error e.
Proof.
  unfold getitem, lookup_error. intros H.
  destruct obj, k; repeat case_match; simplify_eq; cbn; auto.
Qed.

Lemma seq_index_head n : seq_index (S n) 0 = Some 0%nat.
Proof. unfold seq_index. cbn. done. Qed.

(** [only_answer] refines the optional-path extractor: it returns what the
    path holds, and where the path is missing it raises the error of the
    subscription that failed. *)
Lemma only_answer_spec body :
  match content_path body with
  | Some v => OpenAIClient.only_answer body = Ok v
  | None => exists e, OpenAIClient.only_answer body = Raise e /\ lookup_error e
  end.
Proof.
  assert (Hty : lookup_error TypeError) by (unfold lookup_error; cbn; auto).
  assert (Hix : lookup_error IndexError) by (unfold lookup_error; cbn; auto).
  assert (Hkey : forall k, lookup_error (KeyError k)) by (unfold lookup_error; cbn; auto).
  unfold OpenAIClient.only_answer, content_path.
  destruct body as [| | | | |l|d]; cbn [getitem rbind]; eauto.
  destruct (d !! "choices") as [choices|]; cbn [rbind]; [|eauto].
  destruct choices as [| | | |s|[|first rest]|d1]; cbn [getitem rbind]; eauto.
  - destruct (seq_index (String.length s) 0); cbn [getitem rbind]; eauto.
  - cbn [length]. rewrite seq_index_head. cbn [lookup list_lookup rbind].
    destruct first as [| | | |s|l|d1]; cbn [getitem rbind]; eauto.
    destruct (d1 !! "message") as [msg|]; cbn [rbind]; [|eauto].
    destruct msg as [| | | |s|l|d2]; cbn [getitem rbind]; eauto.
    destruct (d2 !! "content") as [v|]; eauto.
Qed.

(** * OpenAIClient.chat_completion, embeddings and close *)

Lemma openai_chat_completion_unfold srv query model temperature only kwargs self w :
  let self' := OpenAIClient.append_message (turn "user" query) self in
  let out := request_with_retry srv (OpenAIClient._client self)
               (OpenAIClient.max_retries self) (NFloat (OpenAIClient.backoff_factor self))
               (openai_chat_request self' model temperature kwargs) w in
  OpenAIClient.chat_completion srv query model temperature only kwargs (self, w)
  = (match out.1 with
     | Ok res => if only then OpenAIClient.only_answer res else Ok res
     | Raise e => Raise e
     | Hang => Hang
     end, (self', out.2)).
Proof.
  cbv zeta. unfold OpenAIClient.chat_completion, bind, modify_self, get_self, in_world,
    OpenAIClient._request, openai_chat_request, lift, ret.
  cbn [OpenAIClient.append_message OpenAIClient._client OpenAIClient.max_retries
       OpenAIClient.backoff_factor OpenAIClient.settings].
  destruct (request_with_retry _ _ _ _ _ w) as [[res|e|] w']; [|done..].
  by destruct only.
Qed.

Lemma openai_chat_state srv query model temperature only kwargs self w :
  (OpenAIClient.chat_completion srv query model temperature only kwargs (self, w)).2.1
  = OpenAIClient.append_message (turn "user" query) self.
Proof. by rewrite openai_chat_completion_unfold. Qed.

Lemma openai_chat_sent srv query model temperature only kwargs self w :
  exists k,
    sent (OpenAIClient.chat_completion srv query model temperature only kwargs (self, w)).2.2
    = sent w ++ replicate k
        (openai_chat_request (OpenAIClient.append_message (turn "user" query) self)
           model temperature kwargs).
Proof.
  rewrite openai_chat_completion_unfold. cbn [snd]. unfold request_with_retry.
  destruct (retry_loop_sent srv (OpenAIClient._client self) (OpenAIClient.max_retries self)
              (NFloat (OpenAIClient.backoff_factor self))
              (openai_chat_request (OpenAIClient.append_message (turn "user" query) self)
                 model temperature kwargs)
              (py_range (OpenAIClient.max_retries self + 1)) w) as (k & _ & Hk).
  eauto.
Qed.


(** C4, amended: with [return_only_answer=True], an open client and a
    successful first response, [chat_completion] sends one request and
    sleeps nothing; it returns exactly what the envelope holds at
    [choices[0].message.content] (["hi"] for the envelope of the claim),
    and where the envelope lacks that path it raises the [KeyError],
    [IndexError] or [TypeError] of the failed subscription.  A request
    that httpx cannot build is not sent: the call raises what
    [build_request] raises. *)
Theorem only_answer_unwraps srv self query model temperature kwargs w body :
  0 <= OpenAIClient.max_retries self ->
  AsyncClient.is_closed (OpenAIClient._client self) = false ->
  (forall r, srv (length (sent w)) r = Ok body) ->
  let out := OpenAIClient.chat_completion srv query model temperature true kwargs (self, w) in
  let req := openai_chat_request (OpenAIClient.append_message (turn "user" query) self)
               model temperature kwargs in
  match AsyncClient.build (OpenAIClient._client self) req with
  | Ok _ =>
      length (new_requests w out.2.2) = 1%nat /\
      slept out.2.2 = slept w /\
      (body = hi_body -> out.1 = Ok (PStr "hi")) /\
      match content_path body with
      | Some v => out.1 = Ok v
      | None => exists e, out.1 = Raise e /\ lookup_error e
      end
  | Raise e => out.1 = Raise e /\ out.2.2 = w
  | Hang => out.1 = Hang /\ out.2.2 = w
  end.
Proof.
  intros Hn Hopen Hsrv out req. subst out req.
  rewrite openai_chat_completion_unfold. cbv zeta.
  rewrite request_with_retry_once_built by done. unfold once_built.
  destruct (AsyncClient.build _ _) as [[]|e|] eqn:Hbuilt; [|done..].
  rewrite request_with_retry_first_ok with (body := body) by done.
  cbn [fst snd sent slept].
  pose proof (only_answer_spec body) as Hspec.
  split; [|split; [done|split]].
  - unfold new_requests. cbn [sent]. by rewrite drop_app_length.
  - intros ->. reflexivity.
  - exact Hspec.
Qed.

Lemma openai_embeddings_unfold srv input model only kwargs self w :
  let out := request_with_retry srv (OpenAIClient._client self)
               (OpenAIClient.max_retries self) (NFloat (OpenAIClient.backoff_factor self))
               (openai_embeddings_request self input model kwargs) w in
  OpenAIClient.embeddings srv input model only kwargs (self, w)
  = (match out.1 with
     | Ok res => if only then OpenAIClient.only_embeddings res else Ok res
     | Raise e => Raise e
     | Hang => Hang
     end, (self, out.2)).
Proof.
  cbv zeta. unfold OpenAIClient.embeddings, bind, get_self, in_world,
    OpenAIClient._request, openai_embeddings_request, lift, ret.
  destruct (request_with_retry _ _ _ _ _ w) as [[res|e|] w']; [|done..].
  by destruct only.
Qed.

Lemma anthropic_chat_completion_unfold srv query model max_tokens temperature stop kwargs
    self w :
  let self' := AnthropicClient.append_message (turn "user" query) self in
  AnthropicClient.chat_completion srv query model max_tokens temperature stop kwargs (self, w)
  = let out := request_with_retry srv (AnthropicClient._client self)
                 (AnthropicClient.max_retries self) (NInt (AnthropicClient.backoff_factor self))
                 (anthropic_chat_request self' model max_tokens temperature stop kwargs) w in
    (out.1, (self', out.2)).
Proof.
  cbv zeta. unfold AnthropicClient.chat_completion, bind, modify_self, get_self, in_world,
    AnthropicClient._request, anthropic_chat_request.
  cbn [AnthropicClient.append_message AnthropicClient._client AnthropicClient.max_retries
       AnthropicClient.backoff_factor AnthropicClient.settings].
  by destruct (request_with_retry _ _ _ _ _ w) as [[res|e|] w'].
Qed.

Lemma perplexity_chat_completion_unfold srv query model self w :
  let self' := PerplexityClient.append_message (turn "user" query) self in
  PerplexityClient.chat_completion srv query model (self, w)
  = let out := request_with_retry srv (PerplexityClient._client self)
                 (PerplexityClient.max_retries self)
                 (NInt (PerplexityClient.backoff_factor self))
                 (perplexity_chat_request self' model) w in
    (out.1, (self', out.2)).
Proof.
  cbv zeta. unfold PerplexityClient.chat_completion, bind, modify_self, get_self, in_world,
    PerplexityClient._request, perplexity_chat_request.
  cbn [PerplexityClient.append_message PerplexityClient._client PerplexityClient.max_retries
       PerplexityClient.backoff_factor PerplexityClient.settings].
  by destruct (request_with_retry _ _ _ _ _ w) as [[res|e|] w'].
Qed.

(** * close *)


(** C5, amended, for the three clients with a non-negative retry
    budget: neither of two [close()] calls raises, and the second changes
    nothing; a [chat_completion] or [embeddings] call made after
    [close()] raises at its first attempt, with no request sent and
    nothing slept: what [build_request] raises for a request httpx cannot
    build, and otherwise the [RuntimeError] of the closed httpx client;
    [chat_completion] has by then appended its user turn. *)
Theorem close_then_call srv (o : OpenAIClient.t) (a : AnthropicClient.t)
    (p : PerplexityClient.t) w :
  0 <= OpenAIClient.max_retries o ->
  0 <= AnthropicClient.max_retries a ->
  0 <= PerplexityClient.max_retries p ->
  let closed_error := fun cl req =>
    rbind (AsyncClient.build cl req)
      (fun _ => Raise (RuntimeError AsyncClient.closed_msg) : result pyval) in
  (let s1 := OpenAIClient.close (o, w) in
   let s2 := OpenAIClient.close s1.2 in
   s1.1 = Ok tt /\ s2.1 = Ok tt /\ s2.2 = s1.2 /\
   (forall query model temperature only kwargs,
      let out := OpenAIClient.chat_completion srv query model temperature only kwargs s1.2 in
      out.1 = closed_error (OpenAIClient._client o)
                (openai_chat_request (OpenAIClient.append_message (turn "user" query) o)
                   model temperature kwargs) /\
      is_Ok out.1 = false /\ out.2.2 = w /\
      OpenAIClient.messages out.2.1 = OpenAIClient.messages o ++ [turn "user" query]) /\
   (forall input model only kwargs,
      let out := OpenAIClient.embeddings srv input model only kwargs s1.2 in
      out.1 = closed_error (OpenAIClient._client o)
                (openai_embeddings_request o input model kwargs) /\
      is_Ok out.1 = false /\ out.2 = s1.2)) /\
  (let s1 := AnthropicClient.close (a, w) in
   let s2 := AnthropicClient.close s1.2 in
   s1.1 = Ok tt /\ s2.1 = Ok tt /\ s2.2 = s1.2 /\
   (forall query model max_tokens temperature stop kwargs,
      let out := AnthropicClient.chat_completion srv query model max_tokens temperature
                   stop kwargs s1.2 in
      out.1 = closed_error (AnthropicClient._client a)
                (anthropic_chat_request (AnthropicClient.append_message (turn "user" query) a)
                   model max_tokens temperature stop kwargs) /\
      is_Ok out.1 = false /\ out.2.2 = w /\
      AnthropicClient.messages out.2.1 = AnthropicClient.messages a ++ [turn "user" query])) /\
  (let s1 := PerplexityClient.close (p, w) in
   let s2 := PerplexityClient.close s1.2 in
   s1.1 = Ok tt /\ s2.1 = Ok tt /\ s2.2 = s1.2 /\
   (forall query model,
      let out := PerplexityClient.chat_completion srv query model s1.2 in
      out.1 = closed_error (PerplexityClient._client p)
                (perplexity_chat_request
                   (PerplexityClient.append_message (turn "user" query) p) model) /\
      is_Ok out.1 = false /\ out.2.2 = w /\
      PerplexityClient.messages out.2.1 = PerplexityClient.messages p ++ [turn "user" query])).
Proof.
  intros Ho Ha Hp closed_error. subst closed_error.
  repeat split; intros;
    cbn [OpenAIClient.close AnthropicClient.close PerplexityClient.close
         modify_self snd fst];
    rewrite ?openai_chat_completion_unfold, ?openai_embeddings_unfold,
      ?anthropic_chat_completion_unfold, ?perplexity_chat_completion_unfold;
    cbv zeta; rewrite ?request_with_retry_closed by done;
    unfold once_built, AsyncClient.build, openai_chat_request,
      openai_embeddings_request, anthropic_chat_request, perplexity_chat_request;
    cbn [OpenAIClient._client AnthropicClient._client PerplexityClient._client
         OpenAIClient.settings AnthropicClient.settings PerplexityClient.settings
         OpenAIClient.append_message AnthropicClient.append_message
         PerplexityClient.append_message OpenAIClient.messages
         AnthropicClient.messages PerplexityClient.messages
         OpenAIClient.chat_payload AnthropicClient.chat_payload
         AnthropicClient.system_prompt
         PerplexityClient.chat_payload AsyncClient.aclose AsyncClient.base_url
         AsyncClient.headers];
    try done;
    by destruct (httpx_build _ _ _) as [[]|e|].
Qed.

(** * Settings *)

Lemma openai_validate_explicit environ self :
  OpenAISettings.api_key self <> "" ->
  OpenAISettings.validate_api_key environ self = Ok self.
Proof. intros H. unfold OpenAISettings.validate_api_key. validate_tac. Qed.

Lemma openai_validate_env environ self :
  OpenAISettings.api_key self = "" ->
  getenv environ "OPENAI_API_KEY" "" <> "" ->
  OpenAISettings.validate_api_key environ self
  = Ok (OpenAISettings.with_api_key (getenv environ "OPENAI_API_KEY" "") self).
Proof. intros H1 H2. unfold OpenAISettings.validate_api_key. validate_tac. Qed.

Lemma openai_validate_missing environ self :
  OpenAISettings.api_key self = "" ->
  getenv environ "OPENAI_API_KEY" "" = "" ->
  OpenAISettings.validate_api_key environ self
  = Raise (ValueError OpenAISettings.missing_msg).
Proof. intros H1 H2. unfold OpenAISettings.validate_api_key. validate_tac. Qed.

Lemma anthropic_validate_explicit environ self :
  AnthropicSettings.api_key self <> "" ->
  AnthropicSettings.validate_api_key environ self = Ok self.
Proof. intros H. unfold AnthropicSettings.validate_api_key. validate_tac. Qed.

Lemma anthropic_validate_env environ self :
  AnthropicSettings.api_key self = "" ->
  getenv environ "ANTHROPIC_API_KEY" "" <> "" ->
  AnthropicSettings.validate_api_key environ self
  = Ok (AnthropicSettings.with_api_key (getenv environ "ANTHROPIC_API_KEY" "") self).
Proof. intros H1 H2. unfold AnthropicSettings.validate_api_key. validate_tac. Qed.

Lemma anthropic_validate_missing environ self :
  AnthropicSettings.api_key self = "" ->
  getenv environ "ANTHROPIC_API_KEY" "" = "" ->
  AnthropicSettings.validate_api_key environ self
  = Raise (ValueError AnthropicSettings.missing_msg).
Proof. intros H1 H2. unfold AnthropicSettings.validate_api_key. validate_tac. Qed.


(** C8, amended: a settings object built with no explicit [api_key] and no
    value in the environment variable raises the missing-credential
    [ValueError], and so does a client built without settings, before any
    httpx client exists; a non-empty explicit key is kept whatever the
    environment holds; without an explicit key a non-empty value of the
    environment variable is taken.  An empty string counts as missing in
    both places: an [api_key] left out and an empty one are the same to
    the validator, and so are a variable that is unset and one that is
    empty. *)
Theorem credential_resolution (environ : gmap string string)
    (od : OpenAISettings.class_defaults) (ad : AnthropicSettings.class_defaults)
    (explicit base_url version : option string) (timeout : option float)
    (max_retries : option Z) (backoff_factor : option float) :
  let o := OpenAISettings.new environ od explicit base_url timeout max_retries
             backoff_factor in
  let a := AnthropicSettings.new environ ad explicit base_url version timeout max_retries
             backoff_factor in
  let o_env := getenv environ "OPENAI_API_KEY" "" in
  let a_env := getenv environ "ANTHROPIC_API_KEY" "" in
  ((default "" explicit = "" -> o_env = "" ->
    o = Raise (ValueError OpenAISettings.missing_msg) /\
    OpenAIClient.init environ od None = Raise (ValueError OpenAISettings.missing_msg)) /\
   (forall k, explicit = Some k -> k <> "" ->
      exists s, o = Ok s /\ OpenAISettings.api_key s = k) /\
   (default "" explicit = "" -> o_env <> "" ->
      exists s, o = Ok s /\ OpenAISettings.api_key s = o_env)) /\
  ((default "" explicit = "" -> a_env = "" ->
    a = Raise (ValueError AnthropicSettings.missing_msg) /\
    forall prompt,
      AnthropicClient.init environ ad prompt None
      = Raise (ValueError AnthropicSettings.missing_msg)) /\
   (forall k, explicit = Some k -> k <> "" ->
      exists s, a = Ok s /\ AnthropicSettings.api_key s = k) /\
   (default "" explicit = "" -> a_env <> "" ->
      exists s, a = Ok s /\ AnthropicSettings.api_key s = a_env)).
Proof.
  intros o a o_env a_env. subst o a o_env a_env.
  unfold OpenAIClient.init, AnthropicClient.init, OpenAISettings.new, AnthropicSettings.new.
  split; (split; [|split]).
  - intros He Henv. by rewrite !openai_validate_missing.
  - intros k -> Hk. rewrite openai_validate_explicit by done. eauto.
  - intros He Henv. rewrite openai_validate_env by done. eauto.
  - intros He Henv. split; [|intros prompt]; by rewrite !anthropic_validate_missing.
  - intros k -> Hk. rewrite anthropic_validate_explicit by done. eauto.
  - intros He Henv. rewrite anthropic_validate_env by done. eauto.
Qed.

(** * A negative retry budget *)

(** C9: the settings accept a negative [max_retries], and so does the
    client: whether it can be built depends on what httpx makes of the URL
    and of the headers only, and the client that is built keeps the
    negative number.  On a client whose [max_retries] is negative
    [_request] sends nothing and returns [None], and [chat_completion]
    without the unwrap flag returns [None] too, after appending the user
    turn.  The two other clients, which have no unwrap flag, return
    [None] in the same way. *)
Theorem negative_max_retries_returns_none srv environ d key n
    (self : OpenAIClient.t) (a : AnthropicClient.t) (p : PerplexityClient.t)
    method path json params query model temperature kwargs w :
  n < 0 -> key <> "" ->
  OpenAIClient.max_retries self < 0 ->
  AnthropicClient.max_retries a < 0 ->
  PerplexityClient.max_retries p < 0 ->
  (exists s,
     OpenAISettings.new environ d (Some key) None None (Some n) None = Ok s /\
     OpenAISettings.max_retries s = n /\
     is_Ok (OpenAIClient.init environ d (Some s))
     = is_Ok (AsyncClient.new (OpenAISettings.base_url s)
                (NFloat (OpenAISettings.timeout s))
                [("Authorization", "Bearer " +:+ key);
                 ("Content-Type", "application/json")]) /\
     forall c, OpenAIClient.init environ d (Some s) = Ok c ->
               OpenAIClient.max_retries c = n) /\
  OpenAIClient._request srv self method path json params w = (Ok PNone, w) /\
  OpenAIClient.chat_completion srv query model temperature false kwargs (self, w)
  = (Ok PNone, (OpenAIClient.append_message (turn "user" query) self, w)) /\
  (forall max_tokens temp stop,
     AnthropicClient.chat_completion srv query model max_tokens temp stop kwargs (a, w)
     = (Ok PNone, (AnthropicClient.append_message (turn "user" query) a, w))) /\
  PerplexityClient.chat_completion srv query model (p, w)
  = (Ok PNone, (PerplexityClient.append_message (turn "user" query) p, w)).
Proof.
  intros Hn Hkey Hself Ha Hp. split; [|repeat split].
  - unfold OpenAISettings.new. rewrite openai_validate_explicit by done.
    eexists. split; [reflexivity|]. split; [done|].
    unfold OpenAIClient.init. cbn [rbind default from_option OpenAISettings.api_key
      OpenAISettings.base_url OpenAISettings.timeout OpenAISettings.max_retries].
    destruct (AsyncClient.new _ _ _) as [cl|e|]; cbn [rbind is_Ok]; [|done..].
    split; [done|]. by intros c [= <-].
  - unfold OpenAIClient._request. by apply request_with_retry_negative.
  - rewrite openai_chat_completion_unfold. cbv zeta.
    by rewrite request_with_retry_negative.
  - intros max_tokens temp stop. rewrite anthropic_chat_completion_unfold. cbv zeta.
    by rewrite request_with_retry_negative.
  - rewrite perplexity_chat_completion_unfold. cbv zeta.
    by rewrite request_with_retry_negative.
Qed.

(** * Payloads *)

Lemma turn_role role content : role_of (turn role content) = Ok (PStr role).
Proof. unfold role_of, turn, getitem. by rewrite lookup_insert_eq. Qed.

Lemma turn_content role content : content_of (turn role content) = Ok (PStr content).
Proof.
  unfold content_of, turn, getitem.
  rewrite lookup_insert_ne by done. by rewrite lookup_singleton_eq.
Qed.

Lemma openai_payload_messages self model temperature kwargs :
  kwargs !! "messages" = None ->
  payload_messages (openai_chat_request self model temperature kwargs)
  = Some (PList (OpenAIClient.messages self)).
Proof.
  intros H. unfold payload_messages, openai_chat_request, OpenAIClient.chat_payload.
  cbn [req_json mbind option_bind]. rewrite lookup_union_r by done.
  rewrite lookup_insert_ne by done. by rewrite lookup_insert_eq.
Qed.

(** In general a [messages] keyword argument of the caller takes the place
    of the history: [payload.update(kwargs)] comes last. *)
Lemma openai_payload_messages_kwargs self model temperature kwargs :
  payload_messages (openai_chat_request self model temperature kwargs)
  = Some (default (PList (OpenAIClient.messages self)) (kwargs !! "messages")).
Proof.
  unfold payload_messages, openai_chat_request, OpenAIClient.chat_payload.
  cbn [req_json mbind option_bind].
  destruct (kwargs !! "messages") as [v|] eqn:Hv; cbn [default from_option].
  - by apply lookup_union_Some_l.
  - rewrite lookup_union_r by done.
    rewrite lookup_insert_ne by done. by rewrite lookup_insert_eq.
Qed.

Lemma perplexity_payload_messages self model :
  payload_messages (perplexity_chat_request self model)
  = Some (PList (PerplexityClient.messages self)).
Proof.
  unfold payload_messages, perplexity_chat_request, PerplexityClient.chat_payload.
  cbn [req_json mbind option_bind].
  rewrite lookup_insert_ne by done. by rewrite lookup_singleton_eq.
Qed.

Lemma set_if_lookup_ne {A} key (f : A -> pyval) v payload k :
  key <> k -> AnthropicClient.set_if key f v payload !! k = payload !! k.
Proof. intros H. destruct v; cbn; [by rewrite lookup_insert_ne|done]. Qed.

Lemma anthropic_payload_messages self model max_tokens temperature stop kwargs :
  kwargs !! "messages" = None ->
  payload_messages (anthropic_chat_request self model max_tokens temperature stop kwargs)
  = Some (PList (AnthropicClient.messages self)).
Proof.
  intros H. unfold payload_messages, anthropic_chat_request, AnthropicClient.chat_payload.
  cbn [req_json mbind option_bind]. rewrite lookup_union_r by done.
  rewrite !set_if_lookup_ne by done.
  do 2 rewrite lookup_insert_ne by done. by rewrite lookup_singleton_eq.
Qed.

Lemma anthropic_payload_system self model max_tokens temperature stop kwargs :
  kwargs !! "system" = None ->
  payload_system (anthropic_chat_request self model max_tokens temperature stop kwargs)
  = Some (PStr (AnthropicClient.system_prompt self)).
Proof.
  intros H. unfold payload_system, anthropic_chat_request, AnthropicClient.chat_payload.
  cbn [req_json mbind option_bind]. rewrite lookup_union_r by done.
  rewrite !set_if_lookup_ne by done.
  rewrite lookup_insert_ne by done. by rewrite lookup_insert_eq.
Qed.

(** * One call *)

Lemma openai_call_state srv a self w :
  (OpenAICalls.call srv a (self, w)).1
  = OpenAIClient.append_message (turn "user" (OpenAICalls.query a)) self.
Proof. apply openai_chat_state. Qed.

Lemma openai_call_sent srv a self w :
  exists k,
    sent (OpenAICalls.call srv a (self, w)).2
    = sent w ++ replicate k
        (openai_chat_request
           (OpenAIClient.append_message (turn "user" (OpenAICalls.query a)) self)
           (OpenAICalls.model a) (OpenAICalls.temperature a) (OpenAICalls.kwargs a)).
Proof. apply openai_chat_sent. Qed.

Lemma anthropic_call_state srv a self w :
  (AnthropicCalls.call srv a (self, w)).1
  = AnthropicClient.append_message (turn "user" (AnthropicCalls.query a)) self.
Proof. unfold AnthropicCalls.call. by rewrite anthropic_chat_completion_unfold. Qed.

Lemma anthropic_call_sent srv a self w :
  exists k,
    sent (AnthropicCalls.call srv a (self, w)).2
    = sent w ++ replicate k
        (anthropic_chat_request
           (AnthropicClient.append_message (turn "user" (AnthropicCalls.query a)) self)
           (AnthropicCalls.model a) (AnthropicCalls.max_tokens a)
           (AnthropicCalls.temperature a) (AnthropicCalls.stop_sequences a)
           (AnthropicCalls.kwargs a)).
Proof.
  unfold AnthropicCalls.call. rewrite anthropic_chat_completion_unfold.
  cbv zeta. cbn [snd]. unfold request_with_retry.
  destruct (retry_loop_sent srv (AnthropicClient._client self)
              (AnthropicClient.max_retries self) (NInt (AnthropicClient.backoff_factor self))
              (anthropic_chat_request
                 (AnthropicClient.append_message (turn "user" (AnthropicCalls.query a)) self)
                 (AnthropicCalls.model a) (AnthropicCalls.max_tokens a)
                 (AnthropicCalls.temperature a) (AnthropicCalls.stop_sequences a)
                 (AnthropicCalls.kwargs a))
              (py_range (AnthropicClient.max_retries self + 1)) w) as (k & _ & Hk).
  eauto.
Qed.

Lemma perplexity_call_state srv a self w :
  (PerplexityCalls.call srv a (self, w)).1
  = PerplexityClient.append_message (turn "user" (PerplexityCalls.query a)) self.
Proof. unfold PerplexityCalls.call. by rewrite perplexity_chat_completion_unfold. Qed.

Lemma perplexity_call_sent srv a self w :
  exists k,
    sent (PerplexityCalls.call srv a (self, w)).2
    = sent w ++ replicate k
        (perplexity_chat_request
           (PerplexityClient.append_message (turn "user" (PerplexityCalls.query a)) self)
           (PerplexityCalls.model a)).
Proof.
  unfold PerplexityCalls.call. rewrite perplexity_chat_completion_unfold.
  cbv zeta. cbn [snd]. unfold request_with_retry.
  destruct (retry_loop_sent srv (PerplexityClient._client self)
              (PerplexityClient.max_retries self)
              (NInt (PerplexityClient.backoff_factor self))
              (perplexity_chat_request
                 (PerplexityClient.append_message (turn "user" (PerplexityCalls.query a)) self)
                 (PerplexityCalls.model a))
              (py_range (PerplexityClient.max_retries self + 1)) w) as (k & _ & Hk).
  eauto.
Qed.

(** * Conversation accumulation *)


(** C6, amended: two [chat_completion] calls in a row on one OpenAI or
    Perplexity client, with queries [q1] then [q2], the second OpenAI call
    passing no [messages] keyword argument of its own.  Whatever the
    server answers, the history after the calls is the earlier history
    followed by the user turn of [q1] and the user turn of [q2], and
    nothing else: no assistant turn is appended.  The payload the second
    call builds, and every request it sends, carries exactly that list as
    [messages]. *)
Theorem conversation_accumulates srv (o : OpenAIClient.t) (p : PerplexityClient.t) w
    (a1 a2 : OpenAICalls.args) (b1 b2 : PerplexityCalls.args) :
  OpenAICalls.kwargs a2 !! "messages" = None ->
  (let s1 := OpenAICalls.call srv a1 (o, w) in
   let s2 := OpenAICalls.call srv a2 s1 in
   let history := OpenAIClient.messages o ++
                  [turn "user" (OpenAICalls.query a1); turn "user" (OpenAICalls.query a2)] in
   OpenAIClient.messages s2.1 = history /\
   OpenAIClient.chat_payload s2.1 (OpenAICalls.model a2) (OpenAICalls.temperature a2)
     (OpenAICalls.kwargs a2) !! "messages" = Some (PList history) /\
   Forall (fun r => payload_messages r = Some (PList history)) (new_requests s1.2 s2.2)) /\
  (let s1 := PerplexityCalls.call srv b1 (p, w) in
   let s2 := PerplexityCalls.call srv b2 s1 in
   let history := PerplexityClient.messages p ++
                  [turn "user" (PerplexityCalls.query b1);
                   turn "user" (PerplexityCalls.query b2)] in
   PerplexityClient.messages s2.1 = history /\
   PerplexityClient.chat_payload s2.1 (PerplexityCalls.model b2) !! "messages"
   = Some (PList history) /\
   Forall (fun r => payload_messages r = Some (PList history)) (new_requests s1.2 s2.2)).
Proof.
  intros Hkw. split.
  - cbv zeta.
    destruct (OpenAICalls.call srv a1 (o, w)) as [o1 w1] eqn:H1.
    pose proof (openai_call_state srv a1 o w) as Ho1. rewrite H1 in Ho1. cbn [fst] in Ho1.
    pose proof (openai_call_state srv a2 o1 w1) as Ho2.
    destruct (openai_call_sent srv a2 o1 w1) as [k Hk].
    destruct (OpenAICalls.call srv a2 (o1, w1)) as [o2 w2]. cbn [fst snd] in *.
    assert (Hhist : OpenAIClient.messages o2 = OpenAIClient.messages o ++
              [turn "user" (OpenAICalls.query a1); turn "user" (OpenAICalls.query a2)]).
    { subst o2 o1. cbn [OpenAIClient.append_message OpenAIClient.messages].
      by rewrite <- app_assoc. }
    split; [done|]. rewrite <- Hhist. split.
    + pose proof (openai_payload_messages o2 (OpenAICalls.model a2)
                    (OpenAICalls.temperature a2) _ Hkw) as Hp.
      exact Hp.
    + rewrite (new_requests_app _ _ _ Hk). apply Forall_replicate.
      rewrite <- Ho2. by apply openai_payload_messages.
  - cbv zeta.
    destruct (PerplexityCalls.call srv b1 (p, w)) as [p1 w1] eqn:H1.
    pose proof (perplexity_call_state srv b1 p w) as Hp1. rewrite H1 in Hp1.
    cbn [fst] in Hp1.
    pose proof (perplexity_call_state srv b2 p1 w1) as Hp2.
    destruct (perplexity_call_sent srv b2 p1 w1) as [k Hk].
    destruct (PerplexityCalls.call srv b2 (p1, w1)) as [p2 w2]. cbn [fst snd] in *.
    assert (Hhist : PerplexityClient.messages p2 = PerplexityClient.messages p ++
              [turn "user" (PerplexityCalls.query b1);
               turn "user" (PerplexityCalls.query b2)]).
    { subst p2 p1. cbn [PerplexityClient.append_message PerplexityClient.messages].
      by rewrite <- app_assoc. }
    split; [done|]. rewrite <- Hhist. split.
    + exact (perplexity_payload_messages p2 (PerplexityCalls.model b2)).
    + rewrite (new_requests_app _ _ _ Hk). apply Forall_replicate.
      rewrite <- Hp2. apply perplexity_payload_messages.
Qed.

(** * Any number of calls *)

(** The history after any calls: the earlier history followed by one user
    turn per call, in order, whatever the calls returned or raised and
    whatever keyword arguments they passed. *)
Lemma openai_calls_messages srv l : forall self w,
  OpenAIClient.messages (OpenAICalls.calls srv l (self, w)).1
  = OpenAIClient.messages self ++ ((fun a => turn "user" (OpenAICalls.query a)) <$> l).
Proof.
  induction l as [|a l IH]; intros self w.
  { cbn. by rewrite app_nil_r. }
  change (OpenAICalls.calls srv (a :: l) (self, w))
    with (OpenAICalls.calls srv l (OpenAICalls.call srv a (self, w))).
  pose proof (openai_call_state srv a self w) as Hst.
  destruct (OpenAICalls.call srv a (self, w)) as [self1 w1]. cbn [fst] in Hst.
  rewrite IH, Hst. cbn [OpenAIClient.append_message OpenAIClient.messages fmap list_fmap].
  by rewrite <- app_assoc.
Qed.

Lemma anthropic_calls_messages srv l : forall self w,
  AnthropicClient.messages (AnthropicCalls.calls srv l (self, w)).1
  = AnthropicClient.messages self
    ++ ((fun a => turn "user" (AnthropicCalls.query a)) <$> l).
Proof.
  induction l as [|a l IH]; intros self w.
  { cbn. by rewrite app_nil_r. }
  change (AnthropicCalls.calls srv (a :: l) (self, w))
    with (AnthropicCalls.calls srv l (AnthropicCalls.call srv a (self, w))).
  pose proof (anthropic_call_state srv a self w) as Hst.
  destruct (AnthropicCalls.call srv a (self, w)) as [self1 w1]. cbn [fst] in Hst.
  rewrite IH, Hst.
  cbn [AnthropicClient.append_message AnthropicClient.messages fmap list_fmap].
  by rewrite <- app_assoc.
Qed.

Lemma perplexity_calls_messages srv l : forall self w,
  PerplexityClient.messages (PerplexityCalls.calls srv l (self, w)).1
  = PerplexityClient.messages self
    ++ ((fun a => turn "user" (PerplexityCalls.query a)) <$> l).
Proof.
  induction l as [|a l IH]; intros self w.
  { cbn. by rewrite app_nil_r. }
  change (PerplexityCalls.calls srv (a :: l) (self, w))
    with (PerplexityCalls.calls srv l (PerplexityCalls.call srv a (self, w))).
  pose proof (perplexity_call_state srv a self w) as Hst.
  destruct (PerplexityCalls.call srv a (self, w)) as [self1 w1]. cbn [fst] in Hst.
  rewrite IH, Hst.
  cbn [PerplexityClient.append_message PerplexityClient.messages fmap list_fmap].
  by rewrite <- app_assoc.
Qed.

(** No call changes the system prompt of the client. *)
Lemma anthropic_calls_system_prompt srv l : forall self w,
  AnthropicClient.system_prompt (AnthropicCalls.calls srv l (self, w)).1
  = AnthropicClient.system_prompt self.
Proof.
  induction l as [|a l IH]; intros self w; [done|].
  change (AnthropicCalls.calls srv (a :: l) (self, w))
    with (AnthropicCalls.calls srv l (AnthropicCalls.call srv a (self, w))).
  pose proof (anthropic_call_state srv a self w) as Hst.
  destruct (AnthropicCalls.call srv a (self, w)) as [self1 w1]. cbn [fst] in Hst.
  rewrite IH. by subst self1.
Qed.

Lemma anthropic_init_messages environ d prompt settings c :
  AnthropicClient.init environ d prompt settings = Ok c ->
  AnthropicClient.messages c = [] /\
  AnthropicClient.system_prompt c
  = str_or prompt AnthropicClient._get_claude_system_prompt.
Proof.
  unfold AnthropicClient.init, rbind. intros H.
  repeat case_match; simplify_eq; done.
Qed.

(** * The system prompt of the Anthropic client *)


(** C7, amended: take a freshly built Anthropic client, any sequence of
    [chat_completion] calls on it, and one more call that passes no
    [messages] or [system] keyword argument of its own.  Every request of
    that call carries the system prompt in its top-level [system] field,
    and every entry of its [messages] has the role [user], never [system],
    and holds the query of one of the calls made so far: the system prompt
    is the content of an entry only when a caller sent it as a query. *)
Theorem system_prompt_outside_messages srv environ d prompt settings c
    (earlier : list AnthropicCalls.args) (a : AnthropicCalls.args) w :
  AnthropicClient.init environ d prompt settings = Ok c ->
  AnthropicCalls.kwargs a !! "messages" = None ->
  AnthropicCalls.kwargs a !! "system" = None ->
  let before := AnthropicCalls.calls srv earlier (c, w) in
  let after := AnthropicCalls.call srv a before in
  Forall (fun r =>
            payload_system r = Some (PStr (AnthropicClient.system_prompt c)) /\
            exists ms, payload_messages r = Some (PList ms) /\
              Forall (fun m =>
                        role_of m = Ok (PStr "user") /\
                        role_of m <> Ok (PStr "system") /\
                        exists b, b ∈ earlier ++ [a] /\
                          content_of m = Ok (PStr (AnthropicCalls.query b)) /\
                          (AnthropicCalls.query b <> AnthropicClient.system_prompt c ->
                           content_of m
                           <> Ok (PStr (AnthropicClient.system_prompt c)))) ms)
    (new_requests before.2 after.2).
Proof.
  intros Hinit Hmsg Hsys before after. subst before after.
  apply anthropic_init_messages in Hinit as [Hempty _].
  pose proof (anthropic_calls_messages srv earlier c w) as Hhist.
  pose proof (anthropic_calls_system_prompt srv earlier c w) as Hprompt.
  destruct (AnthropicCalls.calls srv earlier (c, w)) as [c1 w1]. cbn [fst snd] in *.
  destruct (anthropic_call_sent srv a c1 w1) as [k Hk].
  rewrite (new_requests_app _ _ _ Hk). apply Forall_replicate. split.
  { rewrite anthropic_payload_system by done.
    cbn [AnthropicClient.append_message AnthropicClient.system_prompt]. by rewrite Hprompt. }
  eexists. split; [by apply anthropic_payload_messages|].
  cbn [AnthropicClient.append_message AnthropicClient.messages].
  rewrite Hhist, Hempty, app_nil_l.
  change [turn "user" (AnthropicCalls.query a)]
    with ((fun b => turn "user" (AnthropicCalls.query b)) <$> [a]).
  rewrite <- fmap_app. apply Forall_fmap, Forall_forall. intros b Hb.
  unfold compose. cbv beta.
  rewrite turn_role, turn_content. split; [done|]. split; [discriminate|].
  exists b. split; [done|]. split; [done|]. intros Hne [= Heq]. by apply Hne.
Qed.

(** * A failed call leaves its turn behind *)


(** C10, amended: [chat_completion] appends the user turn before it issues
    the request and nothing removes it.  Whether the call returns or
    raises, the history afterwards is the earlier history followed by the
    new user turn, and the turn stays in the history over any later calls.
    The turn is in the [messages] of every request of the call itself and
    of any later call, for a call that passes no [messages] keyword
    argument of its own.  This holds of the OpenAI and of the Anthropic
    client. *)
Theorem failed_turn_stays srv (o : OpenAIClient.t) (a : AnthropicClient.t) w
    (first_o : OpenAICalls.args) (between_o : list OpenAICalls.args)
    (next_o : OpenAICalls.args)
    (first_a : AnthropicCalls.args) (between_a : list AnthropicCalls.args)
    (next_a : AnthropicCalls.args) :
  (let failed := turn "user" (OpenAICalls.query first_o) in
   let carries := fun r => exists ms, payload_messages r = Some (PList ms) /\ failed ∈ ms in
   let out := OpenAIClient.chat_completion srv (OpenAICalls.query first_o)
                (OpenAICalls.model first_o) (OpenAICalls.temperature first_o)
                (OpenAICalls.return_only_answer first_o) (OpenAICalls.kwargs first_o)
                (o, w) in
   let before := OpenAICalls.calls srv between_o out.2 in
   let after := OpenAICalls.call srv next_o before in
   OpenAIClient.messages out.2.1 = OpenAIClient.messages o ++ [failed] /\
   failed ∈ OpenAIClient.messages before.1 /\
   failed ∈ OpenAIClient.messages after.1 /\
   (OpenAICalls.kwargs first_o !! "messages" = None ->
    Forall carries (new_requests w out.2.2)) /\
   (OpenAICalls.kwargs next_o !! "messages" = None ->
    Forall carries (new_requests before.2 after.2))) /\
  (let failed := turn "user" (AnthropicCalls.query first_a) in
   let carries := fun r => exists ms, payload_messages r = Some (PList ms) /\ failed ∈ ms in
   let out := AnthropicClient.chat_completion srv (AnthropicCalls.query first_a)
                (AnthropicCalls.model first_a) (AnthropicCalls.max_tokens first_a)
                (AnthropicCalls.temperature first_a) (AnthropicCalls.stop_sequences first_a)
                (AnthropicCalls.kwargs first_a) (a, w) in
   let before := AnthropicCalls.calls srv between_a out.2 in
   let after := AnthropicCalls.call srv next_a before in
   AnthropicClient.messages out.2.1 = AnthropicClient.messages a ++ [failed] /\
   failed ∈ AnthropicClient.messages before.1 /\
   failed ∈ AnthropicClient.messages after.1 /\
   (AnthropicCalls.kwargs first_a !! "messages" = None ->
    Forall carries (new_requests w out.2.2)) /\
   (AnthropicCalls.kwargs next_a !! "messages" = None ->
    Forall carries (new_requests before.2 after.2))).
Proof.
  split; cbv zeta.
  - pose proof (openai_call_state srv first_o o w) as Hst.
    destruct (openai_call_sent srv first_o o w) as [k Hk].
    unfold OpenAICalls.call in Hst, Hk.
    destruct (OpenAIClient.chat_completion _ _ _ _ _ _ _) as [r [o1 w1]].
    cbn [fst snd] in *.
    assert (Hin : turn "user" (OpenAICalls.query first_o) ∈ OpenAIClient.messages o1).
    { subst o1. cbn [OpenAIClient.append_message OpenAIClient.messages].
      apply elem_of_app. right. by apply list_elem_of_singleton. }
    pose proof (openai_calls_messages srv between_o o1 w1) as Hhist.
    destruct (OpenAICalls.calls srv between_o (o1, w1)) as [o2 w2]. cbn [fst snd] in *.
    assert (Hin2 : turn "user" (OpenAICalls.query first_o) ∈ OpenAIClient.messages o2).
    { rewrite Hhist. apply elem_of_app. by left. }
    pose proof (openai_call_state srv next_o o2 w2) as Hst3.
    destruct (openai_call_sent srv next_o o2 w2) as [k3 Hk3].
    destruct (OpenAICalls.call srv next_o (o2, w2)) as [o3 w3]. cbn [fst snd] in *.
    assert (Hin3 : turn "user" (OpenAICalls.query first_o) ∈ OpenAIClient.messages o3).
    { subst o3. cbn [OpenAIClient.append_message OpenAIClient.messages].
      apply elem_of_app. by left. }
    split; [by subst o1|]. split; [done|]. split; [done|]. split.
    + intros Hkw. rewrite (new_requests_app _ _ _ Hk). apply Forall_replicate.
      exists (OpenAIClient.messages o1). split; [|done].
      rewrite <- Hst. by apply openai_payload_messages.
    + intros Hkw. rewrite (new_requests_app _ _ _ Hk3). apply Forall_replicate.
      exists (OpenAIClient.messages o3). split; [|done].
      rewrite <- Hst3. by apply openai_payload_messages.
  - pose proof (anthropic_call_state srv first_a a w) as Hst.
    destruct (anthropic_call_sent srv first_a a w) as [k Hk].
    unfold AnthropicCalls.call in Hst, Hk.
    destruct (AnthropicClient.chat_completion _ _ _ _ _ _ _ _) as [r [a1 w1]].
    cbn [fst snd] in *.
    assert (Hin : turn "user" (AnthropicCalls.query first_a) ∈ AnthropicClient.messages a1).
    { subst a1. cbn [AnthropicClient.append_message AnthropicClient.messages].
      apply elem_of_app. right. by apply list_elem_of_singleton. }
    pose proof (anthropic_calls_messages srv between_a a1 w1) as Hhist.
    destruct (AnthropicCalls.calls srv between_a (a1, w1)) as [a2 w2]. cbn [fst snd] in *.
    assert (Hin2 : turn "user" (AnthropicCalls.query first_a) ∈ AnthropicClient.messages a2).
    { rewrite Hhist. apply elem_of_app. by left. }
    pose proof (anthropic_call_state srv next_a a2 w2) as Hst3.
    destruct (anthropic_call_sent srv next_a a2 w2) as [k3 Hk3].
    destruct (AnthropicCalls.call srv next_a (a2, w2)) as [a3 w3]. cbn [fst snd] in *.
    assert (Hin3 : turn "user" (AnthropicCalls.query first_a) ∈ AnthropicClient.messages a3).
    { subst a3. cbn [AnthropicClient.append_message AnthropicClient.messages].
      apply elem_of_app. by left. }
    split; [by subst a1|]. split; [done|]. split; [done|]. split.
    + intros Hkw. rewrite (new_requests_app _ _ _ Hk). apply Forall_replicate.
      exists (AnthropicClient.messages a1). split; [|done].
      rewrite <- Hst. by apply anthropic_payload_messages.
    + intros Hkw. rewrite (new_requests_app _ _ _ Hk3). apply Forall_replicate.
      exists (AnthropicClient.messages a3). split; [|done].
      rewrite <- Hst3. by apply anthropic_payload_messages.
Qed.

End clients.

(** * The retry loop, attempt by attempt *)

Set Warnings "-clear-no-such-hyp".

Section attempts.
Context {platform : Platform}.

(** X1: [OpenAIClient._request] returns the outcome of the first attempt
    that ends the loop.  On an open client and for a request httpx can
    build, when the first [k] attempts fail with a retriable failure (429,
    5xx or a network error), [asyncio.sleep] returns from each of the
    delays in between, and attempt [k] either does not fail in that way
    or is the last one ([k = max_retries]), the call returns or raises
    exactly what attempt [k] gave, after [k + 1] identical requests and
    the delays [backoff_factor * 2 ** a] for [a = 0, ..., k - 1], in that
    order. *)
Theorem openai_request_returns_first_final srv self method path json params w (k : nat) :
  let req := {| req_method := method; req_path := path;
                req_json := json; req_params := params |} in
  AsyncClient.is_closed (OpenAIClient._client self) = false ->
  AsyncClient.build (OpenAIClient._client self) req = Ok tt ->
  Z.of_nat k <= OpenAIClient.max_retries self ->
  Z.of_nat k <= 1024 ->
  (forall i, (i < k)%nat -> retriable (srv (length (sent w) + i)%nat req)) ->
  (forall a, 0 <= a < Z.of_nat k ->
     returns (float_delay (OpenAIClient.backoff_factor self) a)) ->
  final_at (OpenAIClient.max_retries self) (Z.of_nat k) (srv (length (sent w) + k)%nat req) ->
  OpenAIClient._request srv self method path json params w
  = (srv (length (sent w) + k)%nat req,
     {| sent := sent w ++ replicate (S k) req;
        slept := slept w ++ map (float_delay (OpenAIClient.backoff_factor self))
                              (py_range (Z.of_nat k)) |}).
Proof.
  intros req Hopen Hbuilt Hk H1024 Hfail Hret Hfinal. unfold OpenAIClient._request.
  apply (request_with_retry_first_final srv _ _ (NFloat _) req Hbuilt Hopen k w); try done.
  intros a Ha. apply float_backs_off; [lia|by apply Hret].
Qed.

(** X2: the same for [AnthropicClient._request] and
    [PerplexityClient._request], whose factor is an [int]: the outcome of
    the first attempt that ends the loop, [k + 1] requests, and the whole
    delays [backoff_factor * 2 ** a], as long as each delay can still be
    printed by the [:.2f] of the warning.  A request that httpx cannot
    build is not sent: the call raises what [build_request] raises. *)
Theorem int_clients_request_returns_first_final srv (a : AnthropicClient.t)
    (p : PerplexityClient.t) method path json w (k : nat) :
  let req := {| req_method := method; req_path := path;
                req_json := json; req_params := None |} in
  (forall i, (i < k)%nat -> retriable (srv (length (sent w) + i)%nat req)) ->
  (AsyncClient.is_closed (AnthropicClient._client a) = false ->
   Z.of_nat k <= AnthropicClient.max_retries a ->
   final_at (AnthropicClient.max_retries a) (Z.of_nat k)
     (srv (length (sent w) + k)%nat req) ->
   (forall i, 0 <= i < Z.of_nat k ->
      is_Ok (float_of_int (AnthropicClient.backoff_factor a * 2 ^ i)) = true) ->
   AnthropicClient._request srv a method path json w
   = once_built (AnthropicClient._client a) req w
       (srv (length (sent w) + k)%nat req,
        {| sent := sent w ++ replicate (S k) req;
           slept := slept w ++ map (int_delay (AnthropicClient.backoff_factor a))
                                 (py_range (Z.of_nat k)) |})) /\
  (AsyncClient.is_closed (PerplexityClient._client p) = false ->
   Z.of_nat k <= PerplexityClient.max_retries p ->
   final_at (PerplexityClient.max_retries p) (Z.of_nat k)
     (srv (length (sent w) + k)%nat req) ->
   (forall i, 0 <= i < Z.of_nat k ->
      is_Ok (float_of_int (PerplexityClient.backoff_factor p * 2 ^ i)) = true) ->
   PerplexityClient._request srv p method path json w
   = once_built (PerplexityClient._client p) req w
       (srv (length (sent w) + k)%nat req,
        {| sent := sent w ++ replicate (S k) req;
           slept := slept w ++ map (int_delay (PerplexityClient.backoff_factor p))
                                 (py_range (Z.of_nat k)) |})).
Proof.
  intros req Hfail. split; intros Hopen Hk Hfinal Hd.
  - unfold AnthropicClient._request.
    rewrite request_with_retry_once_built by lia. unfold once_built. fold req.
    destruct (AsyncClient.build _ req) as [[]|e|] eqn:Hbuilt; [|done..].
    apply (request_with_retry_first_final srv _ _ (NInt _) req Hbuilt Hopen k w); try done.
    intros i Hi. apply int_backs_off. by apply Hd.
  - unfold PerplexityClient._request.
    rewrite request_with_retry_once_built by lia. unfold once_built. fold req.
    destruct (AsyncClient.build _ req) as [[]|e|] eqn:Hbuilt; [|done..].
    apply (request_with_retry_first_final srv _ _ (NInt _) req Hbuilt Hopen k w); try done.
    intros i Hi. apply int_backs_off. by apply Hd.
Qed.


(** X4: [OpenAIClient._request] never gets past attempt 1024.  On an open
    client with [max_retries > 1024], for a request httpx can build, with
    1025 retriable failures in a row and delays [asyncio.sleep] returns
    from, it raises [OverflowError] from
    [self.backoff_factor * (2 ** attempt)] after 1025 requests and 1024
    delays. *)
Theorem openai_request_overflows srv self method path json params w :
  let req := {| req_method := method; req_path := path;
                req_json := json; req_params := params |} in
  AsyncClient.is_closed (OpenAIClient._client self) = false ->
  AsyncClient.build (OpenAIClient._client self) req = Ok tt ->
  1024 < OpenAIClient.max_retries self ->
  (forall i, (i <= 1024)%nat -> retriable (srv (length (sent w) + i)%nat req)) ->
  (forall a, 0 <= a < 1024 ->
     returns (float_delay (OpenAIClient.backoff_factor self) a)) ->
  OpenAIClient._request srv self method path json params w
  = (Raise OverflowError,
     {| sent := sent w ++ replicate 1025 req;
        slept := slept w ++ map (float_delay (OpenAIClient.backoff_factor self))
                              (py_range 1024) |}).
Proof.
  intros req Hopen Hbuilt Hmax Hfail Hret.
  unfold OpenAIClient._request, request_with_retry, py_range at 1. fold req.
  replace (Z.to_nat (OpenAIClient.max_retries self + 1))
    with (1024 + S (Z.to_nat (OpenAIClient.max_retries self - 1024)))%nat by lia.
  rewrite (retry_loop_prefix srv _ _ _ req Hbuilt Hopen 1024 0); cycle 1.
  - intros i Hi. apply Hfail. lia.
  - lia.
  - intros a Ha. apply float_backs_off; [lia|apply Hret; lia].
  - rewrite Nat.add_0_l. rewrite <- cons_seq. rewrite fmap_cons.
    rewrite (retry_loop_retry srv _ _ _ req Hbuilt Hopen); cbn [sent].
    + unfold bind. change (Z.of_nat 1024) with 1024. rewrite back_off_overflow.
      cbn [sent slept]. rewrite <- app_assoc. unfold py_range. by rewrite <- map_map.
    + rewrite length_app, length_replicate. apply Hfail. lia.
    + lia.
Qed.

End attempts.

Section more.
Context {platform : Platform}.

(** * Embeddings and payloads *)

Lemma lookup_update (kwargs literal : gmap string pyval) k :
  (kwargs ∪ literal) !! k = updated kwargs k (literal !! k).
Proof.
  unfold updated. destruct (kwargs !! k) as [x|] eqn:Hk.
  - by apply lookup_union_Some_l.
  - by rewrite lookup_union_r.
Qed.

Lemma dom_set_if {A} key (f : A -> pyval) v (payload : gmap string pyval) :
  dom (AnthropicClient.set_if key f v payload) = dom payload ∪ key_if key v.
Proof.
  destruct v; cbn [AnthropicClient.set_if key_if].
  - rewrite dom_insert_L. set_solver.
  - set_solver.
Qed.

Lemma lookup_set_if_eq {A} key (f : A -> pyval) v (payload : gmap string pyval) :
  payload !! key = None ->
  AnthropicClient.set_if key f v payload !! key = f <$> v.
Proof. intros H. destruct v; cbn; [by rewrite lookup_insert_eq|done]. Qed.

Lemma only_embeddings_spec body :
  match embedding_path body with
  | Some v => OpenAIClient.only_embeddings body = Ok v
  | None => exists e, OpenAIClient.only_embeddings body = Raise e /\ lookup_error e
  end.
Proof.
  assert (Hty : lookup_error TypeError) by (unfold lookup_error; cbn; auto).
  assert (Hix : lookup_error IndexError) by (unfold lookup_error; cbn; auto).
  assert (Hkey : forall k, lookup_error (KeyError k)) by (unfold lookup_error; cbn; auto).
  unfold OpenAIClient.only_embeddings, embedding_path.
  destruct body as [| | | | |l|d]; cbn [getitem rbind]; eauto.
  destruct (d !! "data") as [data|]; cbn [rbind]; [|eauto].
  destruct data as [| | | |s|[|first rest]|d1]; cbn [getitem rbind]; eauto.
  - destruct (seq_index (String.length s) 0); cbn [getitem rbind]; eauto.
  - cbn [length]. rewrite seq_index_head. cbn [lookup list_lookup rbind].
    destruct first as [| | | |s|l|d1]; cbn [getitem rbind]; eauto.
    destruct (d1 !! "embedding") as [v|]; eauto.
Qed.


Lemma adds_returned w w' (b b' : bool) req k :
  (b = false -> b' = false) -> adds w w' b req k -> adds w w' b' req k.
Proof. intros Hb [Hs [Hl|[Hr Hl]]]; (split; [done|]); [by left|right; auto]. Qed.


(** X6: on an open client whose first response is a success with body
    [body], [embeddings] sends one request, sleeps nothing and leaves the
    client as it was; without the flag it returns [body], with
    [return_only_embeddings=True] it returns what [body] holds at
    [data[0].embedding], and where that path is missing it raises the
    [KeyError], [IndexError] or [TypeError] of the failed subscription.
    A request that httpx cannot build is not sent: the call raises what
    [build_request] raises. *)
Theorem only_embeddings_unwraps srv self input model kwargs w body :
  0 <= OpenAIClient.max_retries self ->
  AsyncClient.is_closed (OpenAIClient._client self) = false ->
  (forall r, srv (length (sent w)) r = Ok body) ->
  let out := OpenAIClient.embeddings srv input model true kwargs (self, w) in
  match AsyncClient.build (OpenAIClient._client self)
          (openai_embeddings_request self input model kwargs) with
  | Ok _ =>
      OpenAIClient.embeddings srv input model false kwargs (self, w) = (Ok body, out.2) /\
      out.2.1 = self /\
      length (new_requests w out.2.2) = 1%nat /\
      slept out.2.2 = slept w /\
      match embedding_path body with
      | Some v => out.1 = Ok v
      | None => exists e, out.1 = Raise e /\ lookup_error e
      end
  | Raise e => out = (Raise e, (self, w))
  | Hang => out = (Hang, (self, w))
  end.
Proof.
  intros Hn Hopen Hsrv out. subst out.
  rewrite !openai_embeddings_unfold. cbv zeta.
  rewrite request_with_retry_once_built by done. unfold once_built.
  destruct (AsyncClient.build _ _) as [[]|e|] eqn:Hbuilt; [|done..].
  rewrite request_with_retry_first_ok with (body := body) by done.
  cbn [fst snd sent slept].
  split; [done|]. split; [done|]. split; [|split; [done|]].
  - unfold new_requests. cbn [sent]. by rewrite drop_app_length.
  - apply only_embeddings_spec.
Qed.

(** X7: with a negative [max_retries] the unwrap flags meet the [None]
    that [_request] returns: [chat_completion(return_only_answer=True)]
    and [embeddings(return_only_embeddings=True)] raise [TypeError] with
    nothing sent, the former after appending its user turn; [embeddings]
    without the flag returns [None]. *)
Theorem unwrap_of_none_raises srv self query input model temperature kwargs w :
  OpenAIClient.max_retries self < 0 ->
  OpenAIClient.chat_completion srv query model temperature true kwargs (self, w)
  = (Raise TypeError, (OpenAIClient.append_message (turn "user" query) self, w)) /\
  OpenAIClient.embeddings srv input model true kwargs (self, w)
  = (Raise TypeError, (self, w)) /\
  OpenAIClient.embeddings srv input model false kwargs (self, w)
  = (Ok PNone, (self, w)).
Proof.
  intros Hn. rewrite openai_chat_completion_unfold, !openai_embeddings_unfold. cbv zeta.
  by rewrite !request_with_retry_negative.
Qed.




(** * Settings and construction *)

Lemma perplexity_validate_explicit environ self :
  PerplexitySettings.api_key self <> "" ->
  PerplexitySettings.validate_api_key environ self = Ok self.
Proof. intros H. unfold PerplexitySettings.validate_api_key. validate_tac. Qed.

Lemma perplexity_validate_env environ self :
  PerplexitySettings.api_key self = "" ->
  getenv environ "PPLX_API_KEY" "" <> "" ->
  PerplexitySettings.validate_api_key environ self
  = Ok (PerplexitySettings.with_api_key (getenv environ "PPLX_API_KEY" "") self).
Proof. intros H1 H2. unfold PerplexitySettings.validate_api_key. validate_tac. Qed.

Lemma perplexity_validate_missing environ self :
  PerplexitySettings.api_key self = "" ->
  getenv environ "PPLX_API_KEY" "" = "" ->
  PerplexitySettings.validate_api_key environ self
  = Raise (ValueError PerplexitySettings.missing_msg).
Proof. intros H1 H2. unfold PerplexitySettings.validate_api_key. validate_tac. Qed.

Lemma str_or_spec a b : str_or a b = if str_falsy a then b else a.
Proof. reflexivity. Qed.

(** X10: [PerplexitySettings(...)] resolves its key as
    [api_key or os.getenv("PPLX_API_KEY", "")]: it raises the
    missing-credential [ValueError] when that string is empty and else
    gives the settings with that key and every other field the argument or
    the class default.  [PerplexityClient()] without settings raises the
    same error when the variable is unset or empty, and else is the client
    of the default settings with the key of the environment. *)
Theorem perplexity_settings_resolution environ d explicit base_url timeout max_retries
    backoff_factor poll_interval :
  let key := str_or (default "" explicit) (getenv environ "PPLX_API_KEY" "") in
  PerplexitySettings.new environ d explicit base_url timeout max_retries backoff_factor
    poll_interval
  = (if str_falsy key then Raise (ValueError PerplexitySettings.missing_msg)
     else Ok {| PerplexitySettings.api_key := key;
                PerplexitySettings.base_url :=
                  default (PerplexitySettings.d_base_url d) base_url;
                PerplexitySettings.timeout :=
                  default (PerplexitySettings.d_timeout d) timeout;
                PerplexitySettings.max_retries :=
                  default (PerplexitySettings.d_max_retries d) max_retries;
                PerplexitySettings.backoff_factor :=
                  default (PerplexitySettings.d_backoff_factor d) backoff_factor;
                PerplexitySettings.poll_interval :=
                  default (PerplexitySettings.d_poll_interval d) poll_interval |}) /\
  (if str_falsy (getenv environ "PPLX_API_KEY" "")
   then PerplexityClient.init environ d None
        = Raise (ValueError PerplexitySettings.missing_msg)
   else PerplexityClient.init environ d None
        = PerplexityClient.init environ d
            (Some {| PerplexitySettings.api_key := getenv environ "PPLX_API_KEY" "";
                     PerplexitySettings.base_url := PerplexitySettings.d_base_url d;
                     PerplexitySettings.timeout := PerplexitySettings.d_timeout d;
                     PerplexitySettings.max_retries := PerplexitySettings.d_max_retries d;
                     PerplexitySettings.backoff_factor :=
                       PerplexitySettings.d_backoff_factor d;
                     PerplexitySettings.poll_interval :=
                       PerplexitySettings.d_poll_interval d |})).
Proof.
  cbv zeta. rewrite str_or_spec. unfold PerplexityClient.init, PerplexitySettings.new.
  split.
  - destruct (str_falsy (default "" explicit)) eqn:He.
    + apply str_falsy_true in He.
      destruct (str_falsy (getenv environ "PPLX_API_KEY" "")) eqn:Hv.
      * apply str_falsy_true in Hv. by rewrite perplexity_validate_missing.
      * apply str_falsy_false in Hv. by rewrite perplexity_validate_env.
    + rewrite He. apply str_falsy_false in He. by rewrite perplexity_validate_explicit.
  - destruct (str_falsy (getenv environ "PPLX_API_KEY" "")) eqn:Hv.
    + apply str_falsy_true in Hv. by rewrite perplexity_validate_missing.
    + apply str_falsy_false in Hv. by rewrite perplexity_validate_env.
Qed.

(** X11: a settings object of any of the three classes, once built, has
    a non-empty [api_key]; its other fields are the arguments given or the
    class defaults; running the validator on it again returns it unchanged
    under any environment.  The only error construction raises is the
    missing-credential [ValueError]. *)
Theorem settings_are_valid environ environ' od ad pd
    (key base_url version : option string) (timeout : option float)
    (max_retries : option Z) (backoff_factor poll_interval : option float) :
  match OpenAISettings.new environ od key base_url timeout max_retries backoff_factor with
  | Ok s =>
      OpenAISettings.api_key s <> "" /\
      OpenAISettings.validate_api_key environ' s = Ok s /\
      OpenAISettings.base_url s = default (OpenAISettings.d_base_url od) base_url /\
      OpenAISettings.timeout s = default (OpenAISettings.d_timeout od) timeout /\
      OpenAISettings.max_retries s = default (OpenAISettings.d_max_retries od) max_retries /\
      OpenAISettings.backoff_factor s
      = default (OpenAISettings.d_backoff_factor od) backoff_factor
  | Raise e => e = ValueError OpenAISettings.missing_msg
  | Hang => False
  end /\
  match AnthropicSettings.new environ ad key base_url version timeout max_retries
          backoff_factor with
  | Ok s =>
      AnthropicSettings.api_key s <> "" /\
      AnthropicSettings.validate_api_key environ' s = Ok s /\
      AnthropicSettings.base_url s = default (AnthropicSettings.d_base_url ad) base_url /\
      AnthropicSettings.version s = default (AnthropicSettings.d_version ad) version /\
      AnthropicSettings.timeout s = default (AnthropicSettings.d_timeout ad) timeout /\
      AnthropicSettings.max_retries s
      = default (AnthropicSettings.d_max_retries ad) max_retries /\
      AnthropicSettings.backoff_factor s
      = default (AnthropicSettings.d_backoff_factor ad) backoff_factor
  | Raise e => e = ValueError AnthropicSettings.missing_msg
  | Hang => False
  end /\
  match PerplexitySettings.new environ pd key base_url timeout max_retries backoff_factor
          poll_interval with
  | Ok s =>
      PerplexitySettings.api_key s <> "" /\
      PerplexitySettings.validate_api_key environ' s = Ok s /\
      PerplexitySettings.base_url s = default (PerplexitySettings.d_base_url pd) base_url /\
      PerplexitySettings.timeout s = default (PerplexitySettings.d_timeout pd) timeout /\
      PerplexitySettings.max_retries s
      = default (PerplexitySettings.d_max_retries pd) max_retries /\
      PerplexitySettings.backoff_factor s
      = default (PerplexitySettings.d_backoff_factor pd) backoff_factor /\
      PerplexitySettings.poll_interval s
      = default (PerplexitySettings.d_poll_interval pd) poll_interval
  | Raise e => e = ValueError PerplexitySettings.missing_msg
  | Hang => False
  end.
Proof.
  unfold OpenAISettings.new, AnthropicSettings.new, PerplexitySettings.new.
  split; [|split].
  - destruct (decide (default "" key = "")) as [He|He].
    + destruct (decide (getenv environ "OPENAI_API_KEY" "" = "")) as [Hv|Hv].
      * by rewrite openai_validate_missing.
      * rewrite openai_validate_env by done. cbn.
        split; [done|]. by rewrite openai_validate_explicit.
    + rewrite openai_validate_explicit by done. cbn.
      split; [done|]. by rewrite openai_validate_explicit.
  - destruct (decide (default "" key = "")) as [He|He].
    + destruct (decide (getenv environ "ANTHROPIC_API_KEY" "" = "")) as [Hv|Hv].
      * by rewrite anthropic_validate_missing.
      * rewrite anthropic_validate_env by done. cbn.
        split; [done|]. by rewrite anthropic_validate_explicit.
    + rewrite anthropic_validate_explicit by done. cbn.
      split; [done|]. by rewrite anthropic_validate_explicit.
  - destruct (decide (default "" key = "")) as [He|He].
    + destruct (decide (getenv environ "PPLX_API_KEY" "" = "")) as [Hv|Hv].
      * by rewrite perplexity_validate_missing.
      * rewrite perplexity_validate_env by done. cbn.
        split; [done|]. by rewrite perplexity_validate_explicit.
    + rewrite perplexity_validate_explicit by done. cbn.
      split; [done|]. by rewrite perplexity_validate_explicit.
Qed.

Lemma int_of_float_finite f : is_Ok (int_of_float f) = is_finite f.
Proof. unfold int_of_float, is_finite. by destruct (Prim2SF f). Qed.

Lemma int_of_float_raises f e : int_of_float f = Raise e -> not_a_whole_number e.
Proof.
  unfold int_of_float, not_a_whole_number.
  destruct (Prim2SF f); intros H; simplify_eq; auto.
Qed.

Lemma int_of_float_cases f :
  (is_finite f = true /\ exists z, int_of_float f = Ok z) \/
  (is_finite f = false /\ exists e, int_of_float f = Raise e /\ not_a_whole_number e).
Proof.
  rewrite <- int_of_float_finite.
  destruct (int_of_float f) as [z|e|] eqn:H; [left; eauto|right|].
  - split; [done|]. exists e. split; [done|]. by apply int_of_float_raises in H.
  - unfold int_of_float in H. by destruct (Prim2SF f).
Qed.


(** X12: building a client from given settings.  [OpenAIClient] is built
    exactly when [httpx.AsyncClient] accepts the base URL, the timeout and
    the headers, and raises what httpx raises otherwise.
    [AnthropicClient] first takes [int(timeout)], then calls httpx, then
    takes [int(backoff_factor)], and [PerplexityClient] [int(poll_interval)]
    after that: they are built exactly when the numbers are finite and
    httpx accepts its arguments; an infinity raises [OverflowError] and a
    NaN [ValueError].  A client that is built is open, holds the settings
    and their [max_retries], the integer parts of the numbers, and the
    initial history: the system turn, or nothing for Anthropic. *)
Theorem init_from_settings environ od ad pd prompt
    (so : OpenAISettings.t) (sa : AnthropicSettings.t) (sp : PerplexitySettings.t) :
  (let httpx :=
     httpx_client (OpenAISettings.base_url so) (NFloat (OpenAISettings.timeout so))
       [("Authorization", "Bearer " +:+ OpenAISettings.api_key so);
        ("Content-Type", "application/json")] in
   match OpenAIClient.init environ od (Some so) with
   | Ok c =>
       httpx = Ok tt /\
       OpenAIClient.settings c = so /\
       OpenAIClient.max_retries c = OpenAISettings.max_retries so /\
       OpenAIClient.backoff_factor c = OpenAISettings.backoff_factor so /\
       OpenAIClient.messages c = [turn "system" system_text] /\
       AsyncClient.is_closed (OpenAIClient._client c) = false /\
       AsyncClient.base_url (OpenAIClient._client c) = OpenAISettings.base_url so
   | Raise e => httpx = Raise e
   | Hang => httpx = Hang
   end) /\
  (let httpx t :=
     httpx_client (str_or (AnthropicSettings.base_url sa) "https://api.anthropic.com/v1/")
       (NInt t)
       [("x-api-key", AnthropicSettings.api_key sa);
        ("anthropic-version", AnthropicSettings.version sa);
        ("Content-Type", "application/json")] in
   match AnthropicClient.init environ ad prompt (Some sa) with
   | Ok c =>
       (exists t, int_of_float (AnthropicSettings.timeout sa) = Ok t /\ httpx t = Ok tt) /\
       AnthropicClient.settings c = sa /\
       AnthropicClient.max_retries c = AnthropicSettings.max_retries sa /\
       int_of_float (AnthropicSettings.backoff_factor sa)
       = Ok (AnthropicClient.backoff_factor c) /\
       AnthropicClient.system_prompt c = str_or prompt system_text /\
       AnthropicClient.messages c = [] /\
       AsyncClient.is_closed (AnthropicClient._client c) = false /\
       AsyncClient.base_url (AnthropicClient._client c)
       = str_or (AnthropicSettings.base_url sa) "https://api.anthropic.com/v1/"
   | Raise e =>
       (is_finite (AnthropicSettings.timeout sa) = false /\ not_a_whole_number e) \/
       (exists t, int_of_float (AnthropicSettings.timeout sa) = Ok t /\
          (httpx t = Raise e \/
           httpx t = Ok tt /\ is_finite (AnthropicSettings.backoff_factor sa) = false /\
           not_a_whole_number e))
   | Hang =>
       exists t, int_of_float (AnthropicSettings.timeout sa) = Ok t /\ httpx t = Hang
   end) /\
  (let httpx t :=
     httpx_client (PerplexitySettings.base_url sp) (NInt t)
       [("Accept", "application/json");
        ("Content-Type", "application/json");
        ("Authorization", "Bearer " +:+ PerplexitySettings.api_key sp)] in
   match PerplexityClient.init environ pd (Some sp) with
   | Ok c =>
       (exists t, int_of_float (PerplexitySettings.timeout sp) = Ok t /\ httpx t = Ok tt) /\
       PerplexityClient.settings c = sp /\
       PerplexityClient.max_retries c = PerplexitySettings.max_retries sp /\
       int_of_float (PerplexitySettings.backoff_factor sp)
       = Ok (PerplexityClient.backoff_factor c) /\
       int_of_float (PerplexitySettings.poll_interval sp)
       = Ok (PerplexityClient.poll_interval c) /\
       PerplexityClient.messages c = [turn "system" system_text] /\
       AsyncClient.is_closed (PerplexityClient._client c) = false /\
       AsyncClient.base_url (PerplexityClient._client c) = PerplexitySettings.base_url sp
   | Raise e =>
       (is_finite (PerplexitySettings.timeout sp) = false /\ not_a_whole_number e) \/
       (exists t, int_of_float (PerplexitySettings.timeout sp) = Ok t /\
          (httpx t = Raise e \/
           httpx t = Ok tt /\
           is_finite (PerplexitySettings.backoff_factor sp)
           && is_finite (PerplexitySettings.poll_interval sp) = false /\
           not_a_whole_number e))
   | Hang =>
       exists t, int_of_float (PerplexitySettings.timeout sp) = Ok t /\ httpx t = Hang
   end).
Proof.
  split; [|split]; cbv zeta.
  - unfold OpenAIClient.init, AsyncClient.new. cbn [rbind].
    by destruct (httpx_client _ _ _) as [[]|e|].
  - unfold AnthropicClient.init, AsyncClient.new. cbn [rbind].
    destruct (int_of_float_cases (AnthropicSettings.timeout sa))
      as [[Ht [t ->]]|[-> (e & -> & He)]]; cbn [rbind]; [|by left].
    destruct (httpx_client _ _ _) as [[]|e|] eqn:Hx; cbn [rbind];
      [|right; eauto|eauto].
    destruct (int_of_float_cases (AnthropicSettings.backoff_factor sa))
      as [[Hb [b ->]]|[Hb (e & -> & He)]]; cbn [rbind].
    + split; [eauto|done].
    + right. exists t. split; [done|]. right. done.
  - unfold PerplexityClient.init, AsyncClient.new. cbn [rbind].
    destruct (int_of_float_cases (PerplexitySettings.timeout sp))
      as [[Ht [t ->]]|[-> (e & -> & He)]]; cbn [rbind]; [|by left].
    destruct (httpx_client _ _ _) as [[]|e|] eqn:Hx; cbn [rbind];
      [|right; eauto|eauto].
    destruct (int_of_float_cases (PerplexitySettings.backoff_factor sp))
      as [[Hb [b ->]]|[Hb (e & -> & He)]]; cbn [rbind].
    + destruct (int_of_float_cases (PerplexitySettings.poll_interval sp))
        as [[Hp [p ->]]|[Hp (e & -> & He)]]; cbn [rbind].
      * split; [eauto|done].
      * right. exists t. split; [done|]. right. rewrite Hb, Hp. done.
    + right. exists t. split; [done|]. right. rewrite Hb. done.
Qed.


(** * Histories *)

Lemma openai_init_messages environ d settings c :
  OpenAIClient.init environ d settings = Ok c ->
  OpenAIClient.messages c = [turn "system" system_text].
Proof.
  unfold OpenAIClient.init, rbind. intros H. repeat case_match; simplify_eq; done.
Qed.

Lemma perplexity_init_messages environ d settings c :
  PerplexityClient.init environ d settings = Ok c ->
  PerplexityClient.messages c = [turn "system" system_text].
Proof.
  unfold PerplexityClient.init, rbind. intros H. repeat case_match; simplify_eq; done.
Qed.

(** X13: the history of a client built by [__init__] after any number
    of [chat_completion] calls, whatever they returned or raised: the
    system turn followed by one user turn per call in order (OpenAI,
    Perplexity), or the user turns alone (Anthropic).  Every entry has
    role [system] or [user]: no answer of the server is ever recorded. *)
Theorem history_of_a_new_client srv w environ od ad pd prompt so sa sp co ca cp
    (lo : list OpenAICalls.args) (la : list AnthropicCalls.args)
    (lp : list PerplexityCalls.args) :
  OpenAIClient.init environ od so = Ok co ->
  AnthropicClient.init environ ad prompt sa = Ok ca ->
  PerplexityClient.init environ pd sp = Ok cp ->
  let ho := OpenAIClient.messages (OpenAICalls.calls srv lo (co, w)).1 in
  let ha := AnthropicClient.messages (AnthropicCalls.calls srv la (ca, w)).1 in
  let hp := PerplexityClient.messages (PerplexityCalls.calls srv lp (cp, w)).1 in
  ho = turn "system" system_text :: ((fun a => turn "user" (OpenAICalls.query a)) <$> lo) /\
  ha = (fun a => turn "user" (AnthropicCalls.query a)) <$> la /\
  hp = turn "system" system_text
       :: ((fun a => turn "user" (PerplexityCalls.query a)) <$> lp) /\
  Forall (fun m => role_of m = Ok (PStr "system") \/ role_of m = Ok (PStr "user"))
    (ho ++ ha ++ hp).
Proof.
  intros Ho Ha Hp. cbv zeta.
  rewrite openai_calls_messages, anthropic_calls_messages, perplexity_calls_messages.
  rewrite (openai_init_messages _ _ _ _ Ho), (perplexity_init_messages _ _ _ _ Hp).
  destruct (anthropic_init_messages _ _ _ _ _ Ha) as [-> _].
  split; [done|]. split; [done|]. split; [done|].
  assert (Huser : forall A (q : A -> string) (l : list A),
    Forall (fun m => role_of m = Ok (PStr "system") \/ role_of m = Ok (PStr "user"))
      ((fun a => turn "user" (q a)) <$> l)).
  { intros A q l. apply Forall_fmap, Forall_forall. intros a _. right. apply turn_role. }
  assert (Hsys : role_of (turn "system" system_text) = Ok (PStr "system")
                 \/ role_of (turn "system" system_text) = Ok (PStr "user")).
  { left. apply turn_role. }
  repeat first [apply Huser | exact Hsys | apply Forall_nil_2
               | apply Forall_cons; split | apply Forall_app; split].
Qed.


(** * The coroutines of main.py *)

Lemma finish_openai e out c w :
  Main.finish OpenAIClient.close e out (c, w)
  = {| Main.ending_of := e;
       Main.client_of := Some (if closed_at e then (OpenAIClient.close (c, w)).2.1 else c);
       Main.stdout_of := out; Main.world_of := w |}.
Proof. by destruct e. Qed.

Lemma finish_anthropic e out c w :
  Main.finish AnthropicClient.close e out (c, w)
  = {| Main.ending_of := e;
       Main.client_of := Some (if closed_at e then (AnthropicClient.close (c, w)).2.1 else c);
       Main.stdout_of := out; Main.world_of := w |}.
Proof. by destruct e. Qed.

Lemma finish_perplexity e out c w :
  Main.finish PerplexityClient.close e out (c, w)
  = {| Main.ending_of := e;
       Main.client_of := Some (if closed_at e then (PerplexityClient.close (c, w)).2.1 else c);
       Main.stdout_of := out; Main.world_of := w |}.
Proof. by destruct e. Qed.

Lemma after_call_ending_ok r : ending_ok (Main.after_call r).1 (Main.after_call r).2.
Proof.
  destruct r as [res|e|]; cbn; [| |done].
  - destruct res; cbn; lia.
  - destruct (Main.is_Exception e) eqn:He; cbn; auto.
Qed.

Lemma after_call_returned r : returned (Main.after_call r).1 = true -> is_Ok r = true.
Proof. destruct r as [res|e|]; cbn; [done| |done]. by destruct (Main.is_Exception e). Qed.


End more.

(** * The clients at concrete inputs

    The examples run on [Examples.platform], whose httpx accepts the URLs,
    keys and payloads used here. *)

#[local] Existing Instance Examples.platform.

(** C1 at the failing input: [OpenAISettings(api_key="k", max_retries=1025,
    backoff_factor=0.0)] and a server that answers 503 to every request.
    The loop makes 1025 attempts, not 1026, and what it raises is the
    [OverflowError] of [0.0 * 2 ** 1024], not the last HTTP failure.  The
    Anthropic client, whose factor is the [int] 0, makes the 1026 attempts
    on the same settings and raises the HTTP failure. *)
Theorem openai_request_overflow :
  let srv := always (Raise (HTTPStatusError 503)) in
  let out := OpenAIClient._request srv (Examples.openai 1025 0%float)
               "POST" "chat/completions" None None world0 in
  let sibling := AnthropicClient._request srv (Examples.anthropic "" 1025 0)
                   "POST" "messages" None world0 in
  (out.1 = Raise OverflowError /\
   length (sent out.2) = 1025%nat /\
   length (slept out.2) = 1024%nat) /\
  (sibling.1 = Raise (HTTPStatusError 503) /\
   length (sent sibling.2) = 1026%nat /\
   length (slept sibling.2) = 1025%nat).
Proof. vm_compute. done. Qed.

(** C2 at the failing input: settings with [max_retries=1] and
    [backoff_factor=0.5], and a server that answers 503 to every request.
    The Anthropic and Perplexity clients keep [int(0.5) = 0] as their
    factor and sleep [0] before the retry; the OpenAI client keeps [0.5]
    and sleeps [0.5]. *)
Theorem backoff_factor_truncated :
  let srv := always (Raise (HTTPStatusError 503)) in
  (exists c,
     AnthropicClient.init ∅ Examples.anthropic_defaults ""
       (Some (Examples.anthropic_settings 1 0.5%float)) = Ok c /\
     AnthropicClient.backoff_factor c = 0 /\
     slept (AnthropicClient._request srv c "POST" "messages" None world0).2 = [NInt 0]) /\
  (exists c,
     PerplexityClient.init ∅ Examples.perplexity_defaults
       (Some (Examples.perplexity_settings 1 0.5%float)) = Ok c /\
     PerplexityClient.backoff_factor c = 0 /\
     slept (PerplexityClient._request srv c "POST" "chat/completions" None world0).2
     = [NInt 0]) /\
  (exists c,
     OpenAIClient.init ∅ Examples.openai_defaults
       (Some (Examples.openai_settings 1 0.5%float)) = Ok c /\
     OpenAIClient.backoff_factor c = 0.5%float /\
     slept (OpenAIClient._request srv c "POST" "chat/completions" None None world0).2
     = [NFloat 0.5%float]).
Proof.
  cbv zeta. split; [|split]; eexists; (split; [vm_compute; reflexivity|]);
    split; vm_compute; reflexivity.
Qed.

Lemma terminal_status_single_attempt_witness :
  OpenAIClient._request (always (Raise (HTTPStatusError 401)))
    (Examples.openai 5 2%float) "POST" "chat/completions" None None world0
  = (Raise (HTTPStatusError 401),
     {| sent := [ {| req_method := "POST"; req_path := "chat/completions";
                     req_json := None; req_params := None |} ];
        slept := [] |}).
Proof.
  apply (terminal_status_single_attempt (always (Raise (HTTPStatusError 401)))
           (Examples.openai 5 2%float) "POST" "chat/completions" None None world0 401).
  - simpl. lia.
  - reflexivity.
  - reflexivity.
  - reflexivity.
  - lia.
  - lia.
  - lia.
Defined.

(** C4, counterexample: the envelope [{}] has no [choices]; with
    [return_only_answer=True] the call raises [KeyError('choices')], and
    that is not a [ResponseShapeError]. *)
Lemma missing_choices_raises_key_error :
  let out := OpenAIClient.chat_completion (always (Ok (PDict ∅))) "q" "gpt-4.1-nano"
               0.5%float true ∅ (Examples.openai 5 2%float, world0) in
  out.1 = Raise (KeyError (PStr "choices")) /\
  exn_name (KeyError (PStr "choices")) <> "ResponseShapeError".
Proof. split; [vm_compute; reflexivity | discriminate]. Qed.

Lemma only_answer_unwraps_witness :
  let out := OpenAIClient.chat_completion (always (Ok hi_body)) "q" "gpt-4.1-nano"
               0.5%float true ∅ (Examples.openai 5 2%float, world0) in
  out.1 = Ok (PStr "hi").
Proof.
  cbv zeta.
  assert (H : 0 <= OpenAIClient.max_retries (Examples.openai 5 2%float)) by (simpl; lia).
  pose proof (only_answer_unwraps (always (Ok hi_body)) (Examples.openai 5 2%float)
                "q" "gpt-4.1-nano" 0.5%float ∅ world0 hi_body H eq_refl
                (fun _ => eq_refl)) as Hc.
  hnf in Hc. destruct Hc as (_ & _ & Hhi & _). apply Hhi. reflexivity.
Defined.

(** C5, counterexample: after [close()], [chat_completion] on a client
    with the default retry budget raises the [RuntimeError] of httpx, not a
    [ClosedClientError]; on a client with [max_retries=-1] it raises
    nothing and returns [None]. *)
Lemma closed_client_raises_runtime_error :
  let srv := always (Ok hi_body) in
  let closed := (OpenAIClient.close (Examples.openai 5 2%float, world0)).2 in
  let out := OpenAIClient.chat_completion srv "q" "gpt-4.1-nano" 0.5%float false ∅ closed in
  let closed' := (OpenAIClient.close (Examples.openai (-1) 2%float, world0)).2 in
  let out' := OpenAIClient.chat_completion srv "q" "gpt-4.1-nano" 0.5%float false ∅
                closed' in
  out.1 = Raise (RuntimeError AsyncClient.closed_msg) /\
  exn_name (RuntimeError AsyncClient.closed_msg) <> "ClosedClientError" /\
  out'.1 = Ok PNone.
Proof. split; [vm_compute; reflexivity | split; [discriminate | vm_compute; reflexivity]]. Qed.

(** C8, counterexample: with the environment variable set to the empty
    string and no explicit key, the variable is present and construction
    still raises the missing-credential [ValueError], in both settings
    classes. *)
Lemma empty_environment_variable_is_missing :
  ({[ "OPENAI_API_KEY" := "" ]} : gmap string string) !! "OPENAI_API_KEY" = Some "" /\
  OpenAISettings.new {[ "OPENAI_API_KEY" := "" ]} Examples.openai_defaults
    None None None None None
  = Raise (ValueError OpenAISettings.missing_msg) /\
  AnthropicSettings.new {[ "ANTHROPIC_API_KEY" := "" ]} Examples.anthropic_defaults
    None None None None None None
  = Raise (ValueError AnthropicSettings.missing_msg).
Proof. repeat split; vm_compute; reflexivity. Qed.

(** C6, counterexample: on an OpenAI client, [chat_completion("q1")]
    followed by [chat_completion("q2", messages=[])].  The one request of
    the second call carries the empty list of the keyword argument as its
    [messages], with neither user turn in it. *)
Lemma messages_kwarg_replaces_history :
  let srv := always (Ok hi_body) in
  let s1 := OpenAICalls.call srv (Examples.ask_openai "q1")
              (Examples.openai 5 2%float, world0) in
  let s2 := OpenAICalls.call srv
              (Examples.ask_openai_with "q2" {[ "messages" := PList [] ]}) s1 in
  OpenAIClient.messages s2.1
  = [turn "system" system_text; turn "user" "q1"; turn "user" "q2"] /\
  exists r, new_requests s1.2 s2.2 = [r] /\ payload_messages r = Some (PList []).
Proof.
  cbv zeta. split; [vm_compute; reflexivity|].
  eexists. split; vm_compute; reflexivity.
Qed.

(** C7, counterexample: [AnthropicClient(system_prompt="hi")] is asked
    [chat_completion("hi")] and then
    [chat_completion("q", messages=[{"role": "system", "content": "s"}],
    system="other")].  The one message of the first request has the system
    prompt as its content; the second request has a message of role
    [system], and its top-level [system] field is not the system prompt. *)
Lemma messages_can_hold_system_prompt :
  let srv := always (Ok hi_body) in
  let c := Examples.anthropic "hi" 5 2 in
  let s1 := AnthropicCalls.call srv (Examples.ask_anthropic "hi") (c, world0) in
  let s2 := AnthropicCalls.call srv
              (Examples.ask_anthropic_with "q"
                 {[ "messages" := PList [turn "system" "s"];
                    "system" := PStr "other" ]}) s1 in
  AnthropicClient.init ∅ Examples.anthropic_defaults "hi"
    (Some (Examples.anthropic_settings 5 2%float)) = Ok c /\
  (exists r m,
     new_requests world0 s1.2 = [r] /\
     payload_messages r = Some (PList [m]) /\
     content_of m = Ok (PStr (AnthropicClient.system_prompt c))) /\
  (exists r m,
     new_requests s1.2 s2.2 = [r] /\
     payload_messages r = Some (PList [m]) /\
     role_of m = Ok (PStr "system") /\
     payload_system r = Some (PStr "other")).
Proof.
  cbv zeta. split; [vm_compute; reflexivity|].
  split; do 2 eexists; repeat split; vm_compute; reflexivity.
Qed.

(** C10, counterexample: on an OpenAI client whose server answers 401,
    [chat_completion("q")] raises, and the next call,
    [chat_completion("r", messages=[])], sends a request whose [messages]
    is the empty list of the keyword argument: the failed turn is not in
    it, while it is still in the history. *)
Lemma messages_kwarg_drops_failed_turn :
  let srv := always (Raise (HTTPStatusError 401)) in
  let out := OpenAIClient.chat_completion srv "q" "gpt-4.1-nano"
               0x1.b333333333333p-1%float false ∅ (Examples.openai 5 2%float, world0) in
  let s := OpenAICalls.call srv
             (Examples.ask_openai_with "r" {[ "messages" := PList [] ]}) out.2 in
  out.1 = Raise (HTTPStatusError 401) /\
  OpenAIClient.messages s.1
  = [turn "system" system_text; turn "user" "q"; turn "user" "r"] /\
  exists r, new_requests out.2.2 s.2 = [r] /\ payload_messages r = Some (PList []).
Proof.
  cbv zeta. split; [vm_compute; reflexivity|]. split; [vm_compute; reflexivity|].
  eexists. split; vm_compute; reflexivity.
Qed.

(** * The theorems at concrete inputs *)

Lemma close_then_call_witness :
  let closed := (OpenAIClient.close (Examples.openai 5 2%float, world0)).2 in
  let out := OpenAIClient.chat_completion (always (Ok hi_body)) "q" "gpt-4.1-nano"
               0.5%float false ∅ closed in
  out.1 = Raise (RuntimeError AsyncClient.closed_msg) /\ out.2.2 = world0.
Proof.
  cbv zeta.
  destruct (close_then_call (always (Ok hi_body)) (Examples.openai 5 2%float)
              (Examples.anthropic "" 5 2) (Examples.perplexity 5 2) world0)
    as [(_ & _ & _ & Hchat & _) _].
  - simpl. lia.
  - simpl. lia.
  - simpl. lia.
  - destruct (Hchat "q" "gpt-4.1-nano" 0.5%float false ∅) as (H1 & _ & H2 & _).
    split; [exact H1 | exact H2].
Defined.

Lemma conversation_accumulates_witness :
  let srv := always (Ok hi_body) in
  let s1 := OpenAICalls.call srv (Examples.ask_openai "q1")
              (Examples.openai 5 2%float, world0) in
  let s2 := OpenAICalls.call srv (Examples.ask_openai "q2") s1 in
  OpenAIClient.messages s2.1
  = [turn "system" system_text; turn "user" "q1"; turn "user" "q2"].
Proof.
  cbv zeta.
  destruct (conversation_accumulates (always (Ok hi_body)) (Examples.openai 5 2%float)
              (Examples.perplexity 5 2) world0
              (Examples.ask_openai "q1") (Examples.ask_openai "q2")
              (Examples.ask_perplexity "q1") (Examples.ask_perplexity "q2"))
    as [(H & _) _].
  - reflexivity.
  - exact H.
Defined.

Lemma system_prompt_outside_messages_witness :
  let before := AnthropicCalls.calls (always (Ok hi_body)) [Examples.ask_anthropic "q1"]
                  (Examples.anthropic "Be brief." 5 2, world0) in
  let after := AnthropicCalls.call (always (Ok hi_body)) (Examples.ask_anthropic "q2")
                 before in
  Forall (fun r => payload_system r = Some (PStr "Be brief."))
    (new_requests before.2 after.2).
Proof.
  cbv zeta. eapply Forall_impl.
  - apply (system_prompt_outside_messages (always (Ok hi_body)) ∅
             Examples.anthropic_defaults "Be brief."
             (Some (Examples.anthropic_settings 5 2%float))
             (Examples.anthropic "Be brief." 5 2)
             [Examples.ask_anthropic "q1"] (Examples.ask_anthropic "q2") world0).
    + vm_compute. reflexivity.
    + reflexivity.
    + reflexivity.
  - intros r [Hsys _]. exact Hsys.
Defined.

Lemma credential_resolution_witness :
  OpenAISettings.new ∅ Examples.openai_defaults None None None None None
  = Raise (ValueError OpenAISettings.missing_msg) /\
  (exists s,
     OpenAISettings.new {[ "OPENAI_API_KEY" := "from-env" ]} Examples.openai_defaults
       (Some "explicit") None None None None = Ok s /\
     OpenAISettings.api_key s = "explicit") /\
  (exists s,
     AnthropicSettings.new {[ "ANTHROPIC_API_KEY" := "from-env" ]}
       Examples.anthropic_defaults None None None None None None = Ok s /\
     AnthropicSettings.api_key s = "from-env").
Proof.
  split; [|split].
  - destruct (credential_resolution ∅ Examples.openai_defaults Examples.anthropic_defaults
                None None None None None None) as [(H & _ & _) _].
    destruct H as [H _]; [reflexivity | reflexivity | exact H].
  - destruct (credential_resolution {[ "OPENAI_API_KEY" := "from-env" ]}
                Examples.openai_defaults Examples.anthropic_defaults
                (Some "explicit") None None None None None) as [(_ & H & _) _].
    apply (H "explicit"); [reflexivity | discriminate].
  - destruct (credential_resolution {[ "ANTHROPIC_API_KEY" := "from-env" ]}
                Examples.openai_defaults Examples.anthropic_defaults
                None None None None None None) as [_ (_ & _ & H)].
    apply H; [reflexivity | vm_compute; discriminate].
Defined.

Lemma negative_max_retries_returns_none_witness :
  OpenAIClient.chat_completion (always (Ok hi_body)) "q" "gpt-4.1-nano" 0.5%float false ∅
    (Examples.openai (-1) 2%float, world0)
  = (Ok PNone,
     (OpenAIClient.append_message (turn "user" "q") (Examples.openai (-1) 2%float), world0)).
Proof.
  destruct (negative_max_retries_returns_none (always (Ok hi_body)) ∅
              Examples.openai_defaults "k" (-1) (Examples.openai (-1) 2%float)
              (Examples.anthropic "" (-1) 2) (Examples.perplexity (-1) 2)
              "POST" "chat/completions" None None "q" "gpt-4.1-nano" 0.5%float ∅ world0)
    as (_ & _ & H & _).
  - lia.
  - discriminate.
  - simpl. lia.
  - simpl. lia.
  - simpl. lia.
  - exact H.
Defined.

Lemma failed_turn_stays_witness :
  let srv := always (Raise (HTTPStatusError 401)) in
  let out := OpenAIClient.chat_completion srv "q" "gpt-4.1-nano"
               0x1.b333333333333p-1%float false ∅ (Examples.openai 5 2%float, world0) in
  let after := OpenAICalls.call srv (Examples.ask_openai "r") out.2 in
  out.1 = Raise (HTTPStatusError 401) /\
  OpenAIClient.messages out.2.1 = [turn "system" system_text; turn "user" "q"] /\
  Forall (fun r => exists ms, payload_messages r = Some (PList ms) /\ turn "user" "q" ∈ ms)
    (new_requests out.2.2 after.2).
Proof.
  cbv zeta.
  destruct (failed_turn_stays (always (Raise (HTTPStatusError 401)))
              (Examples.openai 5 2%float) (Examples.anthropic "" 5 2) world0
              (Examples.ask_openai "q") [] (Examples.ask_openai "r")
              (Examples.ask_anthropic "q") [] (Examples.ask_anthropic "r"))
    as [(Hhist & _ & _ & _ & Hnext) _].
  split; [vm_compute; reflexivity|]. split; [exact Hhist|].
  apply Hnext. reflexivity.
Defined.

Lemma openai_request_returns_first_final_witness :
  OpenAIClient._request
    (fails_then 2 (Raise (HTTPStatusError 503)) (Ok hi_body))
    (Examples.openai 5 2%float) "POST" "chat/completions" None None world0
  = (Ok hi_body,
     {| sent := replicate 3 {| req_method := "POST"; req_path := "chat/completions";
                               req_json := None; req_params := None |};
        slept := [NFloat 2%float; NFloat 4%float] |}).
Proof.
  apply (openai_request_returns_first_final
           (fails_then 2 (Raise (HTTPStatusError 503)) (Ok hi_body))
           (Examples.openai 5 2%float) "POST" "chat/completions" None None world0 2%nat).
  - reflexivity.
  - reflexivity.
  - simpl. lia.
  - lia.
  - intros i Hi. right. exists 503. split; [|reflexivity].
    destruct i as [|[|i]]; [reflexivity|reflexivity|lia].
  - intros a Ha. assert (a = 0 \/ a = 1) as [->| ->] by lia; reflexivity.
  - left. intros [H|(s & H & _)]; discriminate.
Defined.

Lemma int_clients_request_returns_first_final_witness :
  AnthropicClient._request
    (fails_then 2 (Raise RequestError) (Raise (HTTPStatusError 404)))
    (Examples.anthropic "" 5 2) "POST" "messages" None world0
  = (Raise (HTTPStatusError 404),
     {| sent := replicate 3 {| req_method := "POST"; req_path := "messages";
                               req_json := None; req_params := None |};
        slept := [NInt 2; NInt 4] |}).
Proof.
  destruct (int_clients_request_returns_first_final
              (fails_then 2 (Raise RequestError) (Raise (HTTPStatusError 404)))
              (Examples.anthropic "" 5 2) (Examples.perplexity 5 2)
              "POST" "messages" None world0 2%nat) as [H _].
  - intros i Hi. left. destruct i as [|[|i]]; [reflexivity|reflexivity|lia].
  - apply H.
    + reflexivity.
    + simpl. lia.
    + left. intros [H'|(s & H' & Hs)]; [discriminate|].
      injection H' as <-. discriminate.
    + intros i Hi. assert (i = 0 \/ i = 1) as [->| ->] by lia; reflexivity.
Defined.

Lemma openai_request_overflows_witness :
  (OpenAIClient._request (always (Raise (HTTPStatusError 503)))
     (Examples.openai 2000 0%float) "POST" "chat/completions" None None world0).1
  = Raise OverflowError.
Proof.
  rewrite (openai_request_overflows (always (Raise (HTTPStatusError 503)))
             (Examples.openai 2000 0%float) "POST" "chat/completions" None None world0).
  - reflexivity.
  - reflexivity.
  - reflexivity.
  - simpl. lia.
  - intros i Hi. right. exists 503. split; reflexivity.
  - intros a Ha.
    assert (Hall : forallb (fun a => is_Ok (sleep_outcome (float_delay 0 a)))
                     (py_range 1024) = true) by (vm_compute; reflexivity).
    rewrite forallb_forall in Hall.
    specialize (Hall a (proj1 (list_elem_of_In _ _) (elem_of_py_range a 1024 Ha))).
    unfold returns. cbn [OpenAIClient.backoff_factor Examples.openai].
    destruct (sleep_outcome (float_delay 0 a)) as [[]| |]; [reflexivity|discriminate..].
Defined.

Lemma only_embeddings_unwraps_witness :
  (OpenAIClient.embeddings
     (always (Ok (PDict {[ "data" := PList [PDict {[ "embedding" := PList [PInt 1] ]}] ]})))
     "text" "text-embedding-3-small" true ∅ (Examples.openai 5 2%float, world0)).1
  = Ok (PList [PInt 1]).
Proof.
  assert (H : 0 <= OpenAIClient.max_retries (Examples.openai 5 2%float)) by (simpl; lia).
  pose proof (only_embeddings_unwraps
                (always (Ok (PDict {[ "data" :=
                                        PList [PDict {[ "embedding" := PList [PInt 1] ]}] ]})))
                (Examples.openai 5 2%float) "text" "text-embedding-3-small" ∅ world0
                (PDict {[ "data" := PList [PDict {[ "embedding" := PList [PInt 1] ]}] ]})
                H eq_refl (fun _ => eq_refl)) as Hc.
  hnf in Hc. destruct Hc as (_ & _ & _ & _ & Hv). exact Hv.
Defined.

Lemma unwrap_of_none_raises_witness :
  OpenAIClient.chat_completion (always (Ok hi_body)) "q" "gpt-4.1-nano" 0.5%float true ∅
    (Examples.openai (-1) 2%float, world0)
  = (Raise TypeError,
     (OpenAIClient.append_message (turn "user" "q") (Examples.openai (-1) 2%float), world0)).
Proof.
  apply (unwrap_of_none_raises (always (Ok hi_body)) (Examples.openai (-1) 2%float)
           "q" "text" "gpt-4.1-nano" 0.5%float ∅ world0).
  simpl. lia.
Defined.

Lemma history_of_a_new_client_witness :
  OpenAIClient.messages
    (OpenAICalls.calls (always (Raise (HTTPStatusError 401)))
       [Examples.ask_openai "q1"; Examples.ask_openai "q2"]
       (Examples.openai 5 2%float, world0)).1
  = [turn "system" system_text; turn "user" "q1"; turn "user" "q2"].
Proof.
  destruct (history_of_a_new_client (always (Raise (HTTPStatusError 401))) world0 ∅
              Examples.openai_defaults Examples.anthropic_defaults
              Examples.perplexity_defaults ""
              (Some (Examples.openai_settings 5 2%float))
              (Some (Examples.anthropic_settings 5 2%float))
              (Some (Examples.perplexity_settings 5 2%float))
              (Examples.openai 5 2%float) (Examples.anthropic "" 5 2)
              (Examples.perplexity 5 2)
              [Examples.ask_openai "q1"; Examples.ask_openai "q2"] [] [])
    as (H & _).
  - reflexivity.
  - vm_compute. reflexivity.
  - vm_compute. reflexivity.
  - exact H.
Defined.
